(** * nepali_toolkit.datetime: the Bikram Sambat date class

    A shallow embedding of [nepali_toolkit/datetime/__init__.py] and
    [nepali_toolkit/datetime/helpers.py], with the parts of the Python
    runtime and of the standard [datetime] / [time] modules they call.
    ([nepali_toolkit/datetime/date.py] repeats the class up to [__repr__].)

    Python integers are [Z]; the calendar document is a finite map keyed by
    the decimal rendering of the year, as [json.load] returns it; date
    objects live in a store and are passed by reference, so that what a
    method does to an existing object can be stated. *)

From Stdlib Require Import ZArith String Ascii List Lia Bool.
From stdpp Require Import base option list gmap strings pretty.

Open Scope Z_scope.

(** ** Exceptions and results *)

Inductive exn :=
| TypeError (msg : string)
| ValueError (msg : string) (arg : option Z)
| AssertionError (msg : string)
| AttributeError (msg : string)
| KeyError (key : string)
| OverflowError (msg : string)
| SystemError (msg : string).

Inductive result (A : Type) :=
| Ok (a : A)
| Raise (e : exn).
Arguments Ok {A} a.
Arguments Raise {A} e.

Definition result_bind {A B} (f : A → result B) (r : result A) : result B :=
  match r with
  | Ok a => f a
  | Raise e => Raise e
  end.

#[global] Instance result_ret : MRet result := λ A a, Ok a.
#[global] Instance result_mbind : MBind result := λ A B f r, result_bind f r.

(** ** Python values *)

(** A float is a dyadic rational [m * 2^e], an infinity or a NaN: every
    IEEE double is one of these, and [int()] of it is exact. *)
Inductive float :=
| finite (m e : Z)
| inf (negative : bool)
| nan.

Definition loc := positive.

Module _actual_datetime.

(** [datetime.date] of the standard library: a proleptic Gregorian day. *)
Record date := mk { year : Z; month : Z; day : Z }.

Definition MINYEAR : Z := 1.
Definition MAXYEAR : Z := 9999.

Definition _is_leap (y : Z) : bool :=
  (y mod 4 =? 0) && (negb (y mod 100 =? 0) || (y mod 400 =? 0)).

Definition _days_before_year (y : Z) : Z :=
  let y1 := y - 1 in
  y1 * 365 + y1 / 4 - y1 / 100 + y1 / 400.

Definition _DAYS_IN_MONTH : list Z :=
  [-1; 31; 28; 31; 30; 31; 30; 31; 31; 30; 31; 30; 31].

Definition _DAYS_BEFORE_MONTH : list Z :=
  [-1; 0; 31; 59; 90; 120; 151; 181; 212; 243; 273; 304; 334].

Definition _days_in_month (y m : Z) : Z :=
  if (m =? 2) && _is_leap y then 29
  else nth (Z.to_nat m) _DAYS_IN_MONTH 0.

Definition _days_before_month (y m : Z) : Z :=
  nth (Z.to_nat m) _DAYS_BEFORE_MONTH 0
  + (if (m >? 2) && _is_leap y then 1 else 0).

Definition _ymd2ord (y m d : Z) : Z :=
  _days_before_year y + _days_before_month y m + d.

(** [date(year, month, day)] *)
Definition new (y m d : Z) : result date :=
  if negb ((MINYEAR <=? y) && (y <=? MAXYEAR)) then
    Raise (ValueError "year must be in 1..9999" (Some y))
  else if negb ((1 <=? m) && (m <=? 12)) then
    Raise (ValueError "month must be in 1..12" (Some m))
  else
    let dim := _days_in_month y m in
    if negb ((1 <=? d) && (d <=? dim)) then
      Raise (ValueError ("day must be in 1.." +:+ pretty dim) (Some d))
    else Ok (mk y m d).

Definition toordinal (g : date) : Z := _ymd2ord (year g) (month g) (day g).

(** [a - b] on two dates: the [timedelta] of whole days between them. *)
Definition sub (a b : date) : Z := toordinal a - toordinal b.

Definition _DI400Y : Z := 146097.
Definition _DI100Y : Z := 36524.
Definition _DI4Y : Z := 1461.

(** ordinal -> (year, month, day), 1 being 0001-01-01 *)
Definition _ord2ymd (n : Z) : Z * Z * Z :=
  let n := n - 1 in
  let n400 := n / _DI400Y in
  let n := n mod _DI400Y in
  let year := n400 * 400 + 1 in
  let n100 := n / _DI100Y in
  let n := n mod _DI100Y in
  let n4 := n / _DI4Y in
  let n := n mod _DI4Y in
  let n1 := n / 365 in
  let n := n mod 365 in
  let year := year + n100 * 100 + n4 * 4 + n1 in
  if (n1 =? 4) || (n100 =? 4) then (year - 1, 12, 31)
  else
    let leapyear := (n1 =? 3) && (negb (n4 =? 24) || (n100 =? 3)) in
    let month := Z.shiftr (n + 50) 5 in
    let preceding :=
      nth (Z.to_nat month) _DAYS_BEFORE_MONTH 0
      + (if (month >? 2) && leapyear then 1 else 0) in
    if preceding >? n then
      let month := month - 1 in
      let preceding :=
        preceding
        - (nth (Z.to_nat month) _DAYS_IN_MONTH 0
           + (if (month =? 2) && leapyear then 1 else 0)) in
      (year, month, n - preceding + 1)
    else (year, month, n - preceding + 1).

End _actual_datetime.

Module _time.

(** [time.gmtime(t)] for a whole number of seconds [t]: the first three
    fields (year, month, day) of the UTC civil time. 1970-01-01 is day
    719163 of the proleptic Gregorian calendar. *)
Definition gmtime (t : Z) : Z * Z * Z :=
  _actual_datetime._ord2ymd (719163 + t / 86400).

End _time.

(** The Nepali date object: the four slots of the class. *)
Record date := mk_date {
  _year : Z;
  _month : Z;
  _day : Z;
  _hashcode : Z
}.

Inductive pyval :=
| VNone
| VNotImplemented
| VBool (b : bool)
| VInt (z : Z)
| VFloat (f : float)
| VTimedelta (days seconds microseconds : Z)
| VADDate (g : _actual_datetime.date)
| VRef (l : loc).

(** [type(v)] as [str.format] prints it *)
Definition type_repr (v : pyval) : string :=
  match v with
  | VNone => "<class 'NoneType'>"
  | VNotImplemented => "<class 'NotImplementedType'>"
  | VBool _ => "<class 'bool'>"
  | VInt _ => "<class 'int'>"
  | VFloat _ => "<class 'float'>"
  | VTimedelta _ _ _ => "<class 'datetime.timedelta'>"
  | VADDate _ => "<class 'datetime.date'>"
  | VRef _ => "<class 'nepali_toolkit.datetime.date'>"
  end.

Definition type_name (v : pyval) : string :=
  match v with
  | VNone => "NoneType"
  | VNotImplemented => "NotImplementedType"
  | VBool _ => "bool"
  | VInt _ => "int"
  | VFloat _ => "float"
  | VTimedelta _ _ _ => "datetime.timedelta"
  | VADDate _ => "datetime.date"
  | VRef _ => "date"
  end.

(** [str(n)] of an integer *)
Definition str (z : Z) : string := pretty z.



(** [int(v)]: integers and booleans as they are, a float truncated
    towards zero; anything else here has no [__int__], [__index__] or
    [__trunc__]. *)
Definition int (v : pyval) : result Z :=
  match v with
  | VInt z => Ok z
  | VBool b => Ok (if b then 1 else 0)
  | VFloat (finite m e) =>
      Ok (if 0 <=? e then m * 2 ^ e else Z.quot m (2 ^ (- e)))
  | VFloat (inf _) =>
      Raise (OverflowError "cannot convert float infinity to integer")
  | VFloat nan =>
      Raise (ValueError "cannot convert float NaN to integer" None)
  | _ =>
      Raise (TypeError
        ("int() argument must be a string, a bytes-like object or a real number, not '"
         +:+ type_name v +:+ "'"))
  end.

(** ["%0<width>d" % z] *)
Definition fmt_0d (width : nat) (z : Z) : string :=
  let sign := if z <? 0 then "-" else EmptyString in
  let digits := str (Z.abs z) in
  sign
  +:+ string_of_list_ascii
        (repeat "0"%char (width - String.length sign - String.length digits))
  +:+ digits.

(** Comparison of tuples of integers: the first position where the two
    differ decides, and a proper prefix is smaller. *)
Fixpoint tuple_eq (x y : list Z) : bool :=
  match x, y with
  | [], [] => true
  | a :: x', b :: y' => (a =? b) && tuple_eq x' y'
  | _, _ => false
  end.

Fixpoint tuple_gt (x y : list Z) : bool :=
  match x, y with
  | a :: x', b :: y' => if a =? b then tuple_gt x' y' else a >? b
  | _ :: _, [] => true
  | [], _ => false
  end.

(** ** constants.py and data/calender.json

    Neither file is part of the sources at hand: the development is
    parametric in both. *)

Class Constants := {
  MINYEAR : Z;
  MAXYEAR : Z;
  NEPAL_TIME_UTC_OFFSET : Z;
  (** the keyword arguments year, month, day *)
  REFERENCE_DATE_AD : Z * Z * Z
}.

(** [json.load] of the calendar document:
    [{"<year>": {"months": {"<month>": <days>, ...}}, ...}] *)
Class Calendar := _CALENDAR : gmap string (gmap string (gmap string Z)).

(** ** helpers.py *)

Module helpers.
Section helpers.
Context {K : Constants} {C : Calendar}.

(** Same as [a.__index__()]. *)
Definition _index (a : pyval) : result Z :=
  match a with
  | VInt z => Ok z
  | VBool b => Ok (if b then 1 else 0)
  | _ =>
      Raise (AttributeError
        ("'" +:+ type_name a +:+ "' object has no attribute '__index__'"))
  end.

(** year, month -> number of days in that month in that year. *)
Definition _days_in_month (year month : Z) : result Z :=
  if negb ((1 <=? month) && (month <=? 12)) then
    Raise (AssertionError ("Invalid month: " +:+ str month))
  else
    match _CALENDAR !! str year with
    | None => Raise (KeyError (str year))
    | Some entry =>
        match entry !! "months" with
        | None => Raise (KeyError "months")
        | Some months =>
            match months !! str month with
            | None => Raise (KeyError (str month))
            | Some n => Ok n
            end
        end
    end.

Definition year_msg : string :=
  "year must be in " +:+ str MINYEAR +:+ ".." +:+ str MAXYEAR.
Definition month_msg : string := "month must be in 1..12".
Definition day_msg (dim : Z) : string := "day must be in 1.." +:+ str dim.

Definition _check_date_fields (year month day : pyval) : result (Z * Z * Z) :=
  year ← _index year;
  month ← _index month;
  day ← _index day;
  if negb ((MINYEAR <=? year) && (year <=? MAXYEAR)) then
    Raise (ValueError year_msg (Some year))
  else if negb ((1 <=? month) && (month <=? 12)) then
    Raise (ValueError month_msg (Some month))
  else
    dim ← _days_in_month year month;
    if negb ((1 <=? day) && (day <=? dim)) then
      Raise (ValueError (day_msg dim) (Some day))
    else Ok (year, month, day).

Definition _compare (x y : list Z) : Z :=
  if tuple_eq x y then 0 else if tuple_gt x y then 1 else -1.

End helpers.
End helpers.

(** ** The object store

    A computation reads and extends the store of date objects and ends in
    a value or an exception. *)

Definition M (A : Type) : Type :=
  gmap loc date → result A * gmap loc date.

Definition ret {A} (a : A) : M A := λ h, (Ok a, h).

Definition raise {A} (e : exn) : M A := λ h, (Raise e, h).

Definition bind {A B} (m : M A) (f : A → M B) : M B :=
  λ h, match m h with
       | (Ok a, h') => f a h'
       | (Raise e, h') => (Raise e, h')
       end.

Definition lift {A} (r : result A) : M A := λ h, (r, h).

(** [object.__new__(cls)] followed by the assignments to the slots *)
Definition alloc (o : date) : M loc :=
  λ h, let l := fresh (dom h) in (Ok l, <[l := o]> h).

(** reading the slots of an object; a reference to no object is not
    something a Python program can hold *)
Definition deref (l : loc) : M date :=
  λ h, match h !! l with
       | Some o => (Ok o, h)
       | None => (Raise (SystemError "dangling reference"), h)
       end.

#[global] Instance M_ret : MRet M := @ret.
#[global] Instance M_bind : MBind M := λ A B f m, bind m f.

(** Unfolding a sequence of two computations. *)
Ltac unfold_bind := unfold mbind, M_bind, bind.

(** ** datetime/__init__.py: class date *)

Section date_class.
Context {K : Constants} {C : Calendar}.

Definition __new__ (year month day : pyval) : M loc :=
  year' ← lift (int year);
  month' ← lift (int month);
  day' ← lift (int day);
  ymd ← lift (helpers._check_date_fields (VInt year') (VInt month') (VInt day'));
  alloc {| _year := ymd.1.1; _month := ymd.1.2; _day := ymd.2;
           _hashcode := -1 |}.

(** Add a date to a timedelta. (the body is [pass]) *)
Definition __add__ (self : loc) (other : pyval) : M pyval := ret VNone.

Definition __radd__ := __add__.

(** (the body is [pass]) *)
Definition __sub__ (self : loc) (other : pyval) : M pyval := ret VNone.

Definition from_datetime_date (from_date : pyval) : M pyval :=
  match from_date with
  | VADDate g =>
      epoch ← __new__ (VInt MINYEAR) (VInt 1) (VInt 1);
      ref ← lift (let '(y, m, d) := REFERENCE_DATE_AD in
                   _actual_datetime.new y m d);
      __add__ epoch (VTimedelta (_actual_datetime.sub g ref) 0 0)
  | _ => raise (TypeError ("Unsupported type " +:+ type_repr from_date +:+ "."))
  end.

(** Construct a date from a POSIX timestamp (like time.time()); [t] is
    [None] or a whole number of seconds. *)
Definition fromtimestamp (t : option Z) : M pyval :=
  match t with
  | None =>
      raise (TypeError "'NoneType' object cannot be interpreted as an integer")
  | Some t =>
      let '(y, m, d) := _time.gmtime (t + NEPAL_TIME_UTC_OFFSET) in
      g ← lift (_actual_datetime.new y m d);
      from_datetime_date (VADDate g)
  end.

(** Construct a date from time.time(); [now] is what the clock reads. *)
Definition today (now : Z) : M pyval := fromtimestamp (Some now).

Definition year (self : loc) : M Z := o ← deref self; ret (_year o).
Definition month (self : loc) : M Z := o ← deref self; ret (_month o).
Definition day (self : loc) : M Z := o ← deref self; ret (_day o).

(** Return the date formatted according to ISO: 'YYYY-MM-DD'. *)
Definition isoformat (self : loc) : M string :=
  o ← deref self;
  ret (fmt_0d 4 (_year o) +:+ "-" +:+ fmt_0d 2 (_month o) +:+ "-"
       +:+ fmt_0d 2 (_day o)).

Definition __str__ := isoformat.

Definition __repr__ (self : loc) : M string :=
  o ← deref self;
  ret ("nepali_toolkit.datetime" +:+ "." +:+ "date" +:+ "("
       +:+ str (_year o) +:+ ", " +:+ str (_month o) +:+ ", "
       +:+ str (_day o) +:+ ")").

Definition is_none (v : pyval) : bool :=
  match v with VNone => true | _ => false end.

(** Return a new date with new values for the specified fields. *)
Definition replace (self : loc) (year month day : pyval) : M loc :=
  o ← deref self;
  let year := if is_none year then VInt (_year o) else year in
  let month := if is_none month then VInt (_month o) else month in
  let day := if is_none day then VInt (_day o) else day in
  __new__ year month day.

Definition _cmp (self : loc) (other : pyval) : M Z :=
  match other with
  | VRef other =>
      a ← deref self;
      b ← deref other;
      ret (helpers._compare [_year a; _month a; _day a]
                            [_year b; _month b; _day b])
  | _ => raise (AssertionError EmptyString)
  end.

Definition isinstance_date (v : pyval) : bool :=
  match v with VRef _ => true | _ => false end.

Definition __eq__ (self : loc) (other : pyval) : M pyval :=
  if isinstance_date other then
    c ← _cmp self other; ret (VBool (c =? 0))
  else ret VNotImplemented.

Definition __le__ (self : loc) (other : pyval) : M pyval :=
  if isinstance_date other then
    c ← _cmp self other; ret (VBool (c <=? 0))
  else ret VNotImplemented.

Definition __lt__ (self : loc) (other : pyval) : M pyval :=
  if isinstance_date other then
    c ← _cmp self other; ret (VBool (c <? 0))
  else ret VNotImplemented.

Definition __ge__ (self : loc) (other : pyval) : M pyval :=
  if isinstance_date other then
    c ← _cmp self other; ret (VBool (c >=? 0))
  else ret VNotImplemented.

Definition __gt__ (self : loc) (other : pyval) : M pyval :=
  if isinstance_date other then
    c ← _cmp self other; ret (VBool (c >? 0))
  else ret VNotImplemented.

End date_class.

(** ** The public surface, as one type of calls *)

Inductive call :=
| call_new (year month day : pyval)
| call_from_datetime_date (from_date : pyval)
| call_fromtimestamp (t : option Z)
| call_today (now : Z)
| call_year (self : loc)
| call_month (self : loc)
| call_day (self : loc)
| call_isoformat (self : loc)
| call_str (self : loc)
| call_repr (self : loc)
| call_replace (self : loc) (year month day : pyval)
| call_eq (self : loc) (other : pyval)
| call_le (self : loc) (other : pyval)
| call_lt (self : loc) (other : pyval)
| call_ge (self : loc) (other : pyval)
| call_gt (self : loc) (other : pyval)
| call_add (self : loc) (other : pyval)
| call_radd (self : loc) (other : pyval)
| call_sub (self : loc) (other : pyval).

(** What a call hands back: a Python value or a string. *)
Inductive answer :=
| AVal (v : pyval)
| AText (s : string).

Section exec.
Context {K : Constants} {C : Calendar}.

Definition exec (c : call) : M answer :=
  match c with
  | call_new y m d => l ← __new__ y m d; mret (AVal (VRef l))
  | call_from_datetime_date g => v ← from_datetime_date g; mret (AVal v)
  | call_fromtimestamp t => v ← fromtimestamp t; mret (AVal v)
  | call_today now => v ← today now; mret (AVal v)
  | call_year self => z ← year self; mret (AVal (VInt z))
  | call_month self => z ← month self; mret (AVal (VInt z))
  | call_day self => z ← day self; mret (AVal (VInt z))
  | call_isoformat self => s ← isoformat self; mret (AText s)
  | call_str self => s ← __str__ self; mret (AText s)
  | call_repr self => s ← __repr__ self; mret (AText s)
  | call_replace self y m d => l ← replace self y m d; mret (AVal (VRef l))
  | call_eq self other => v ← __eq__ self other; mret (AVal v)
  | call_le self other => v ← __le__ self other; mret (AVal v)
  | call_lt self other => v ← __lt__ self other; mret (AVal v)
  | call_ge self other => v ← __ge__ self other; mret (AVal v)
  | call_gt self other => v ← __gt__ self other; mret (AVal v)
  | call_add self other => v ← __add__ self other; mret (AVal v)
  | call_radd self other => v ← __radd__ self other; mret (AVal v)
  | call_sub self other => v ← __sub__ self other; mret (AVal v)
  end.

End exec.

(** ** Validity of a date and of the calendar document *)

Section validity.
Context {K : Constants} {C : Calendar}.

(** The three invariants of a date, against the calendar document. *)
Definition valid_date (o : date) : Prop :=
  MINYEAR ≤ _year o ≤ MAXYEAR
  ∧ 1 ≤ _month o ≤ 12
  ∧ ∃ dim, helpers._days_in_month (_year o) (_month o) = Ok dim
           ∧ 1 ≤ _day o ≤ dim.

Definition valid_dateb (o : date) : bool :=
  (MINYEAR <=? _year o) && (_year o <=? MAXYEAR)
  && (1 <=? _month o) && (_month o <=? 12)
  && match helpers._days_in_month (_year o) (_month o) with
     | Ok dim => (1 <=? _day o) && (_day o <=? dim)
     | Raise _ => false
     end.

(** Every date of the store is valid. *)
Definition store_valid (h : gmap loc date) : Prop :=
  map_Forall (λ _ o, valid_date o) h.

(** The answer of a call is no reference to a date. *)
Definition no_ref (h : gmap loc date) (r : result answer) : Prop :=
  ∀ l, r ≠ Ok (AVal (VRef l)).

Definition covered_years : list Z := seqZ MINYEAR (MAXYEAR - MINYEAR + 1).

(** The document has, for every year of [MINYEAR..MAXYEAR] and every
    month of 1..12, a day count of at least 1. *)
Definition calendar_covers : bool :=
  forallb
    (λ y, forallb
            (λ m, match helpers._days_in_month y m with
                  | Ok n => 1 <=? n
                  | Raise _ => false
                  end)
            (seqZ 1 12))
    covered_years.


(** The number of days of a month, 0 where the document has none. *)
Definition month_days (y m : Z) : Z :=
  match helpers._days_in_month y m with
  | Ok n => n
  | Raise _ => 0
  end.

Definition sumZ (l : list Z) : Z := foldr Z.add 0 l.

(** Modelled from the spec: the total of the twelve month lengths of a
    year. *)
Definition year_days (y : Z) : Z := sumZ (month_days y <$> seqZ 1 12).

(** Modelled from the spec: the days of the whole years from [first] up
    to the year before [y] (the source has no ordinal: the bodies of
    [__add__] and [__sub__] are empty). *)
Definition days_before_year_from (first y : Z) : Z :=
  sumZ (year_days <$> seqZ first (y - first)).

(** Modelled from the spec: the days of the months of [y] before [m]. *)
Definition days_before_month (y m : Z) : Z :=
  sumZ (month_days y <$> seqZ 1 (m - 1)).

(** Modelled from the spec: [to_ordinal], the days of the whole years
    before the date's, of the months of its year before its month, and
    its day of the month. *)
Definition to_ordinal_from (first : Z) (o : date) : Z :=
  days_before_year_from first (_year o)
  + days_before_month (_year o) (_month o)
  + _day o.





End validity.

(** ** An excerpt of the calendar, to run the definitions on

    Three years of the almanac, 2077 to 2079, with the constants cut to that
    range; BS 2077-01-01 is 13 April 2020. *)

Definition months_of (l : list Z) : gmap string (gmap string Z) :=
  {[ "months" := list_to_map (zip (str <$> seqZ 1 12) l) ]}.

Definition excerpt_document : gmap string (gmap string (gmap string Z)) :=
  list_to_map
    [ ("2077", months_of [31; 32; 31; 32; 31; 30; 30; 30; 29; 30; 29; 31]);
      ("2078", months_of [31; 31; 31; 32; 31; 31; 30; 29; 30; 29; 30; 30]);
      ("2079", months_of [31; 31; 32; 31; 31; 31; 30; 29; 30; 29; 30; 30]) ].

#[local] Instance excerpt_calendar : Calendar := excerpt_document.

#[local] Instance excerpt_constants : Constants := {|
  MINYEAR := 2077;
  MAXYEAR := 2079;
  NEPAL_TIME_UTC_OFFSET := 20700;
  REFERENCE_DATE_AD := (2020, 4, 13)
|}.

Definition run {A} (m : M A) : result A * gmap loc date := m ∅.

(** ** Renderings the statements compare with *)

Definition digit_char (n : Z) : ascii := ascii_of_nat (48 + Z.to_nat n).

Definition two_digits (n : Z) : string :=
  String (digit_char (n / 10)) (String (digit_char (n mod 10)) EmptyString).

Definition zeros (k : nat) : string :=
  string_of_list_ascii (repeat "0"%char k).

(** [z] in decimal, with zeros on the left up to [width] characters *)
Definition zero_pad (width : nat) (z : Z) : string :=
  zeros (width - String.length (str z)) +:+ str z.

(** ** numbers/convert.py

    A Python string is the list of its code points, which is what a loop
    over it visits. [data/digits_map.json] is not part of the sources at
    hand: the development is parametric in it. Its two tables are taken to
    map strings to strings. *)

Abbreviation pystr := (list N).

(** The code points of a string of ASCII characters. *)
Definition code_points (s : string) : pystr :=
  N_of_ascii <$> list_ascii_of_string s.

(** [json.load] of the digit document:
    [{"to_nepali": {"0": ..., ...}, "to_english": {...}}] *)
Class DigitsMap := digits_map : gmap string (gmap pystr pystr).

(** The argument of the two conversions: an integer or a string. *)
Inductive number :=
| NInt (z : Z)
| NStr (s : pystr).

(** [str(number)] *)
Definition str_of (n : number) : pystr :=
  match n with
  | NInt z => code_points (str z)
  | NStr s => s
  end.

Module convert.
Section convert.
Context {D : DigitsMap}.

(** [digits_map[key]] *)
Definition table (key : string) : result (gmap pystr pystr) :=
  match digits_map !! key with
  | Some t => Ok t
  | None => Raise (KeyError key)
  end.

(** The join, with the empty separator, of
    [digits_map[key].get(char, char) for char in s]: the table is looked
    up anew for every character. *)
Fixpoint join_get (key : string) (s : pystr) : result pystr :=
  match s with
  | [] => Ok []
  | char :: s' =>
      t ← table key;
      rest ← join_get key s';
      Ok (default [char] (t !! [char]) ++ rest)
  end.

(** Convert Engling digits to Nepali (Devanagari) digits *)
Definition to_nepali_number (number : number) : result pystr :=
  join_get "to_nepali" (str_of number).

(** Convert Nepali (Devanagari) digits to English digits. *)
Definition to_english_number (nepali_number : number) : result pystr :=
  join_get "to_english" (str_of nepali_number).

(** Check if the given string contains only Nepali digits:
    [all(char in digits_map["to_english"] for char in text)], which stops
    at the first character that is no key. *)
Fixpoint is_nepali_number (text : pystr) : result bool :=
  match text with
  | [] => Ok true
  | char :: text' =>
      t ← table "to_english";
      if bool_decide (is_Some (t !! [char])) then is_nepali_number text'
      else Ok false
  end.

End convert.
End convert.

(** The ten digits, ASCII 48..57 and Devanagari U+0966..U+096F, to run the
    definitions on. *)
Definition ascii_digit (i : Z) : pystr := [Z.to_N (48 + i)].
Definition devanagari_digit (i : Z) : pystr := [Z.to_N (2406 + i)].

Definition devanagari_to_nepali : gmap pystr pystr :=
  list_to_map ((λ i, (ascii_digit i, devanagari_digit i)) <$> seqZ 0 10).

Definition devanagari_to_english : gmap pystr pystr :=
  list_to_map ((λ i, (devanagari_digit i, ascii_digit i)) <$> seqZ 0 10).

Definition devanagari_document : gmap string (gmap pystr pystr) :=
  {[ "to_nepali" := devanagari_to_nepali;
     "to_english" := devanagari_to_english ]}.

#[local] Instance devanagari_digits : DigitsMap := devanagari_document.

(** A document without the two tables. *)
Definition empty_document : gmap string (gmap pystr pystr) := ∅.

(** Checks on the two digit tables, which a document either passes or
    not. Every one-character key of [t1] has a one-character entry that
    [t2] maps back to the key. *)
Definition inverse_on_characters (t1 t2 : gmap pystr pystr) : bool :=
  forallb
    (λ kv : pystr * pystr,
       match kv.1 with
       | [c] => match kv.2 with
                | [c'] => bool_decide (t2 !! [c'] = Some [c])
                | _ => false
                end
       | _ => true
       end)
    (map_to_list t1).

(** The characters of [s] that are no keys of [t1] are no keys of [t2]. *)
Definition untouched_are_no_keys (t1 t2 : gmap pystr pystr) (s : pystr)
    : bool :=
  forallb
    (λ c, match t1 !! [c] with
          | Some _ => true
          | None => bool_decide (t2 !! [c] = None)
          end)
    s.


(** ** location/__init__.py

    The three JSON documents ([provinces.json], [districts.json],
    [municipalities.json]) are not part of the sources at hand: the
    development is parametric in them. A record is a finite map from keys
    to scalar JSON values (null, booleans, integers, strings); the
    arguments of the methods range over the same values. [str.lower] is a
    parameter too. The fuzzy [find.search] is left out. *)

Inductive json :=
| JNull
| JBool (b : bool)
| JInt (z : Z)
| JStr (s : pystr).

Class StrLower := lower : pystr → pystr.

Class LocationData := {
  _provinces : list (gmap pystr json);
  _districts : list (gmap pystr json);
  _municipalities : list (gmap pystr json)
}.

Module location.

(** The exceptions of this module. The message of the ValueError for an
    unsupported mode lists the supported modes in the iteration order of a
    set, so the exception is kept by its cause. *)
Inductive error :=
| type_error (msg : string)
| value_error (msg : string)
| unsupported_mode (mode : pystr)
| key_error (key : string)
| attribute_error (msg : string).

Inductive res (A : Type) :=
| ok (a : A)
| fail (e : error).
Arguments ok {A} a.
Arguments fail {A} e.

#[global] Instance res_ret : MRet res := λ A a, ok a.
#[global] Instance res_bind : MBind res := λ A B f r,
  match r with
  | ok a => f a
  | fail e => fail e
  end.

(** [a == b] on two scalar values: booleans count as the integers 0 and
    1. *)
Definition as_int (v : json) : option Z :=
  match v with
  | JInt z => Some z
  | JBool b => Some (if b then 1 else 0)
  | _ => None
  end.

Definition py_eq (a b : json) : bool :=
  match a, b with
  | JNull, JNull => true
  | JStr s, JStr t => bool_decide (s = t)
  | _, _ =>
      match as_int a, as_int b with
      | Some x, Some y => x =? y
      | _, _ => false
      end
  end.

(** The truth value of a scalar. *)
Definition truthy (v : json) : bool :=
  match v with
  | JNull => false
  | JBool b => b
  | JInt z => negb (z =? 0)
  | JStr s => match s with [] => false | _ => true end
  end.

Definition isinstance_int (v : json) : bool :=
  match v with JInt _ | JBool _ => true | _ => false end.

Definition isinstance_str (v : json) : bool :=
  match v with JStr _ => true | _ => false end.

Definition type_name (v : json) : string :=
  match v with
  | JNull => "NoneType"
  | JBool _ => "bool"
  | JInt _ => "int"
  | JStr _ => "str"
  end.

(** [s.startswith(p)] *)
Fixpoint startswith (p s : pystr) : bool :=
  match p, s with
  | [], _ => true
  | a :: p', b :: s' => (a =? b)%N && startswith p' s'
  | _ :: _, [] => false
  end.

(** [d[key]] *)
Definition getitem (d : gmap pystr json) (key : string) : res json :=
  match d !! code_points key with
  | Some v => ok v
  | None => fail (key_error key)
  end.

Definition SUPPORTED_LANGUAGES : list pystr :=
  [code_points "en"; code_points "np"].

Definition in_supported (mode : option pystr) : bool :=
  match mode with
  | Some m => bool_decide (m ∈ SUPPORTED_LANGUAGES)
  | None => false
  end.

Section base.
Context {L : StrLower}.

(** Normalize and validate the language mode input. *)
Definition _normalize_mode (mode : json) : res (option pystr) :=
  match mode with
  | JNull => ok None
  | JStr m =>
      let m := lower m in
      if bool_decide (m ∈ SUPPORTED_LANGUAGES) then ok (Some m)
      else fail (unsupported_mode m)
  | _ => fail (type_error "Mode must be a string or None.")
  end.

(** The keys of a record that start neither with [name_] nor with
    [headquarter_]. *)
Definition other_keys (d : gmap pystr json) : gmap pystr json :=
  filter (λ kv, negb (startswith (code_points "name_") kv.1)
                && negb (startswith (code_points "headquarter_") kv.1) = true)
         d.

Definition lang_key (prefix : string) (mode : pystr) : pystr :=
  code_points prefix ++ mode.

Definition _get_values_by_lang (mode : pystr)
    (values : list (gmap pystr json)) : list (gmap pystr json) :=
  (λ val,
     <[code_points "headquarter" :=
         default (JStr []) (val !! lang_key "headquarter_" mode)]>
       (<[code_points "name" :=
            default (JStr []) (val !! lang_key "name_" mode)]>
          (other_keys val)))
  <$> values.

Definition _get_single_value_by_lang (mode : pystr)
    (value : gmap pystr json) : res (gmap pystr json) :=
  match value !! lang_key "name_" mode with
  | None => fail (key_error (string_of_list_ascii
                               (ascii_of_N <$> lang_key "name_" mode)))
  | Some name =>
      match value !! lang_key "headquarter_" mode with
      | None => fail (key_error (string_of_list_ascii
                                   (ascii_of_N <$> lang_key "headquarter_" mode)))
      | Some hq =>
          ok (<[code_points "headquarter" := hq]>
                (<[code_points "name" := name]> (other_keys value)))
      end
  end.

(** [next((val for val in values if val[key] == v), None)] *)
Fixpoint first_with (key : string) (v : json)
    (values : list (gmap pystr json)) : res (option (gmap pystr json)) :=
  match values with
  | [] => ok None
  | val :: values' =>
      x ← getitem val key;
      if py_eq x v then ok (Some val) else first_with key v values'
  end.

Definition _get_by_id (id : json) (values : list (gmap pystr json))
    : res (option (gmap pystr json)) :=
  first_with "id" id values.

(** [v.lower()] of a value taken from a record *)
Definition lower_of (v : json) : res pystr :=
  match v with
  | JStr s => ok (lower s)
  | _ => fail (attribute_error
                 ("'" +:+ type_name v +:+ "' object has no attribute 'lower'"))
  end.

(** [next((d for d in values if d["name_en"].lower() == name.lower()), None)] *)
Fixpoint first_named_en (name : pystr) (values : list (gmap pystr json))
    : res (option (gmap pystr json)) :=
  match values with
  | [] => ok None
  | d :: values' =>
      en ← getitem d "name_en";
      en ← lower_of en;
      if bool_decide (en = lower name) then ok (Some d)
      else first_named_en name values'
  end.

Fixpoint _get_by_name (name : pystr) (values : list (gmap pystr json))
    : res (option (gmap pystr json)) :=
  match values with
  | [] => ok None
  | d :: values' =>
      en ← getitem d "name_en";
      en ← lower_of en;
      if bool_decide (en = lower name) then ok (Some d)
      else
        np ← getitem d "name_np";
        if py_eq np (JStr name) then ok (Some d)
        else _get_by_name name values'
  end.

(** [not result] for an optional record *)
Definition not_result (r : option (gmap pystr json)) : bool :=
  match r with
  | None => true
  | Some d => bool_decide (d = ∅)
  end.

(** The end of [provinces.get] and [districts.get]: nothing found is
    [None]; otherwise the mode is normalized and the record localized. *)
Definition by_mode (mode : json) (result : option (gmap pystr json))
    : res (option (gmap pystr json)) :=
  match result with
  | None => ok None
  | Some r =>
      if not_result result then ok None
      else
        mode ← _normalize_mode mode;
        match mode with
        | Some m =>
            if in_supported mode then
              v ← _get_single_value_by_lang m r; ok (Some v)
            else ok (Some r)
        | None => ok (Some r)
        end
  end.

(** The body shared by [provinces.get] and [districts.get]. *)
Definition get_in (data : list (gmap pystr json)) (id name mode : json)
    : res (option (gmap pystr json)) :=
  match id, name with
  | JNull, JNull =>
      fail (value_error "Either 'id' or 'name' must be provided.")
  | JNull, _ =>
      result ← (if truthy name then
                  match name with
                  | JStr n => _get_by_name n data
                  | _ => fail (type_error "'name' must be a string.")
                  end
                else ok None);
      by_mode mode result
  | _, _ =>
      result ← (if isinstance_int id then _get_by_id id data
                else fail (type_error "'id' must be an integer."));
      by_mode mode result
  end.

(** The body shared by [provinces.all] and [districts.all]. *)
Definition all_in (data : list (gmap pystr json)) (mode : json)
    : res (list (gmap pystr json)) :=
  mode ← _normalize_mode mode;
  match mode with
  | Some m => if in_supported mode then ok (_get_values_by_lang m data)
              else ok data
  | None => ok data
  end.

End base.

Module provinces.
Section provinces.
Context {L : StrLower} {G : LocationData}.

Definition all (mode : json) : res (list (gmap pystr json)) :=
  all_in _provinces mode.

Definition get (id name mode : json) : res (option (gmap pystr json)) :=
  get_in _provinces id name mode.

End provinces.
End provinces.

Module districts.
Section districts.
Context {L : StrLower} {G : LocationData}.

Definition all (mode : json) : res (list (gmap pystr json)) :=
  all_in _districts mode.

Definition get (id name mode : json) : res (option (gmap pystr json)) :=
  get_in _districts id name mode.

(** [[d for d in _districts if d["province_id"] == province_id]] *)
Fixpoint with_key (key : string) (v : json)
    (values : list (gmap pystr json)) : res (list (gmap pystr json)) :=
  match values with
  | [] => ok []
  | d :: values' =>
      x ← getitem d key;
      rest ← with_key key v values';
      ok (if py_eq x v then d :: rest else rest)
  end.

(** Get districts by province ID or name (English/Nepali), with optional
    language output. *)
Definition get_by_province (province mode : json)
    : res (list (gmap pystr json)) :=
  province_id ←
    (if isinstance_int province then ok province
     else if isinstance_str province then
       matched ← provinces.get JNull province JNull;
       match matched with
       | Some m => if not_result matched then ok JNull else getitem m "id"
       | None => ok JNull
       end
     else fail (type_error "'province' must be an int or str."));
  match province_id with
  | JNull => ok []
  | _ =>
      mode ← _normalize_mode mode;
      filtered ← with_key "province_id" province_id _districts;
      match mode with
      | Some m => if in_supported mode then ok (_get_values_by_lang m filtered)
                  else ok filtered
      | None => ok filtered
      end
  end.

End districts.
End districts.

Module municipalities.
Section municipalities.
Context {L : StrLower} {G : LocationData}.

Definition all : res (list (gmap pystr json)) := ok _municipalities.

(** Get a single municipalilty by ID or name *)
Definition get (id name : json) : res (option (gmap pystr json)) :=
  match id, name with
  | JNull, JNull =>
      fail (value_error "Either 'id' or 'name' must be provided.")
  | JNull, _ =>
      if truthy name then
        match name with
        | JStr n => first_named_en n _municipalities
        | _ => fail (type_error "'name' must be a string.")
        end
      else ok None
  | _, _ =>
      if isinstance_int id then _get_by_id id _municipalities
      else fail (type_error "'id' must be an integer.")
  end.

(** Get municipalities by district ID or name (English/Nepali) *)
Definition get_by_district (district : json)
    : res (list (gmap pystr json)) :=
  district_id ←
    (if isinstance_int district then ok district
     else if isinstance_str district then
       matched ← districts.get JNull district JNull;
       match matched with
       | Some m => if not_result matched then ok JNull else getitem m "id"
       | None => ok JNull
       end
     else fail (type_error "'district' must be an int or str."));
  match district_id with
  | JNull => ok []
  | _ => districts.with_key "district_id" district_id _municipalities
  end.

End municipalities.
End municipalities.

Module wards.
Section wards.
Context {L : StrLower} {G : LocationData}.

Definition dquote : string := String (ascii_of_nat 34) EmptyString.

(** [list(range(1, n + 1))] for the value of [ward_count] *)
Definition ward_range (n : json) : res (list Z) :=
  match as_int n with
  | Some n => ok (seqZ 1 n)
  | None =>
      fail (type_error
              match n with
              | JStr _ =>
                  "can only concatenate str (not " +:+ dquote +:+ "int"
                  +:+ dquote +:+ ") to str"
              | _ => "unsupported operand type(s) for +: 'NoneType' and 'int'"
              end)
  end.

Definition get_by_municipality (municipality : json) : res (list Z) :=
  municipality_id ←
    (if isinstance_int municipality then ok municipality
     else if isinstance_str municipality then
       matched ← municipalities.get JNull municipality;
       match matched with
       | Some m => if not_result matched then ok JNull else getitem m "id"
       | None => ok JNull
       end
     else fail (type_error "'municipality' must be an int or str."));
  match municipality_id with
  | JNull => ok []
  | _ =>
      muni ← municipalities.get municipality_id JNull;
      match muni with
      | Some m =>
          if not_result muni then ok []
          else
            match m !! code_points "ward_count" with
            | Some n => ward_range n
            | None => ok []
            end
      | None => ok []
      end
  end.

End wards.
End wards.

End location.

(** A small gazetteer, to run the definitions on, and [str.lower] on
    ASCII letters. *)
Definition record (l : list (string * json)) : gmap pystr json :=
  list_to_map ((λ kv, (code_points kv.1, kv.2)) <$> l).

Definition text (s : string) : json := JStr (code_points s).

Definition ascii_lower : pystr → pystr :=
  fmap (λ c : N, if ((65 <=? c) && (c <=? 90))%N then (c + 32)%N else c).

#[local] Instance ascii_str_lower : StrLower := ascii_lower.

Definition koshi_np : pystr := [2325; 2379; 2358; 2368]%N.
Definition madhesh_np : pystr := [2350; 2343; 2375; 2358]%N.

#[local] Instance gazetteer : LocationData := {|
  _provinces :=
    [ record [("id", JInt 1); ("name_en", text "Koshi Province");
              ("name_np", JStr koshi_np);
              ("headquarter_en", text "Biratnagar");
              ("headquarter_np", JStr [2348; 2367]%N);
              ("area", JInt 25905)];
      record [("id", JInt 2); ("name_en", text "Madhesh Province");
              ("name_np", JStr madhesh_np);
              ("headquarter_en", text "Janakpur");
              ("headquarter_np", JStr [2332; 2344]%N);
              ("area", JInt 9661)] ];
  _districts :=
    [ record [("id", JInt 1); ("province_id", JInt 1);
              ("name_en", text "Bhojpur"); ("name_np", JStr [2349; 2379]%N)];
      record [("id", JInt 2); ("province_id", JInt 2);
              ("name_en", text "Saptari"); ("name_np", JStr [2360; 2346]%N)];
      record [("id", JInt 3); ("province_id", JInt 1);
              ("name_en", text "Jhapa"); ("name_np", JStr [2333; 2366]%N)] ];
  _municipalities :=
    [ record [("id", JInt 1); ("district_id", JInt 1);
              ("name_en", text "Bhojpur Municipality");
              ("name_np", JStr [2349; 2379; 2332]%N);
              ("ward_count", JInt 12)];
      record [("id", JInt 2); ("district_id", JInt 1);
              ("name_en", text "Hatuwagadhi Rural Municipality");
              ("name_np", JStr [2361; 2340]%N);
              ("ward_count", JInt 9)] ]
|}.

(** * Properties *)

(** ** The calendar document *)

Section calendar_facts.
Context {K : Constants} {C : Calendar}.

Lemma in_covered_years (y : Z) :
  y ∈ covered_years ↔ MINYEAR ≤ y ≤ MAXYEAR.
Proof. unfold covered_years. rewrite elem_of_seqZ. lia. Qed.

Lemma calendar_covers_lookup (y m : Z) :
  calendar_covers = true →
  MINYEAR ≤ y ≤ MAXYEAR → 1 ≤ m ≤ 12 →
  ∃ n, helpers._days_in_month y m = Ok n ∧ 1 ≤ n.
Proof.
  intros Hc Hy Hm. unfold calendar_covers in Hc.
  apply Is_true_true_2, forallb_True in Hc.
  rewrite Forall_forall in Hc.
  specialize (Hc y (proj2 (in_covered_years y) Hy)).
  apply forallb_True in Hc. rewrite Forall_forall in Hc.
  assert (Hin : m ∈ seqZ 1 12) by (apply elem_of_seqZ; lia).
  specialize (Hc m Hin). simpl in Hc.
  destruct (helpers._days_in_month y m) as [n|e]; [|done].
  exists n. split; [done|]. apply Is_true_true_1 in Hc. lia.
Qed.




Lemma valid_dateb_spec (o : date) : valid_dateb o = true ↔ valid_date o.
Proof.
  unfold valid_dateb, valid_date. split.
  - intros H. repeat (apply andb_prop in H; destruct H as [H ?]).
    destruct (helpers._days_in_month (_year o) (_month o)) as [dim|e]; [|done].
    match goal with H : _ && _ = true |- _ => apply andb_prop in H; destruct H end.
    repeat split; try lia. exists dim. split; [done|lia].
  - intros (Hy & Hm & dim & -> & Hd).
    repeat (apply andb_true_intro; split); lia.
Qed.

End calendar_facts.

(** ** _days_in_month *)

Section days_in_month.
Context {K : Constants} {C : Calendar}.


End days_in_month.


(** ** Construction *)

Section construction.
Context {K : Constants} {C : Calendar}.

Lemma in_range_true (lo x hi : Z) :
  lo ≤ x ≤ hi → negb ((lo <=? x) && (x <=? hi)) = false.
Proof.
  intros. apply negb_false_iff, andb_true_intro. lia.
Qed.

Lemma in_range_false (lo x hi : Z) :
  ¬ (lo ≤ x ≤ hi) → negb ((lo <=? x) && (x <=? hi)) = true.
Proof.
  intros. apply negb_true_iff, andb_false_iff. lia.
Qed.

Lemma check_date_fields_valid (y m d hc : Z) :
  valid_date (mk_date y m d hc) →
  helpers._check_date_fields (VInt y) (VInt m) (VInt d) = Ok (y, m, d).
Proof.
  intros (Hy & Hm & dim & Hdim & Hd). simpl in *.
  unfold helpers._check_date_fields. simpl.
  rewrite (in_range_true _ _ _ Hy), (in_range_true _ _ _ Hm), Hdim. simpl.
  by rewrite (in_range_true _ _ _ Hd).
Qed.

Lemma check_date_fields_inv (y m d hc : Z) (t : Z * Z * Z) :
  helpers._check_date_fields (VInt y) (VInt m) (VInt d) = Ok t →
  t = (y, m, d) ∧ valid_date (mk_date y m d hc).
Proof.
  unfold helpers._check_date_fields, valid_date. simpl.
  destruct (negb ((MINYEAR <=? y) && (y <=? MAXYEAR))) eqn:Ey; [done|].
  destruct (negb ((1 <=? m) && (m <=? 12))) eqn:Em; [done|].
  destruct (helpers._days_in_month y m) as [dim|e] eqn:Edim; [|done]. simpl.
  destruct (negb ((1 <=? d) && (d <=? dim))) eqn:Ed; [done|].
  intros [= <-].
  apply negb_false_iff, andb_prop in Ey, Em, Ed.
  repeat split; try lia. exists dim. split; [done|lia].
Qed.

(** What the constructor does on three integers. *)
Lemma new_int (y m d : Z) (h : gmap loc date) :
  __new__ (VInt y) (VInt m) (VInt d) h
  = match helpers._check_date_fields (VInt y) (VInt m) (VInt d) with
    | Ok t =>
        (Ok (fresh (dom h)),
         <[fresh (dom h) := mk_date t.1.1 t.1.2 t.2 (-1)]> h)
    | Raise e => (Raise e, h)
    end.
Proof.
  unfold __new__. unfold_bind. unfold lift, alloc, int.
  by destruct (helpers._check_date_fields _ _ _).
Qed.

Lemma new_valid (y m d : Z) (h : gmap loc date) :
  valid_date (mk_date y m d (-1)) →
  __new__ (VInt y) (VInt m) (VInt d) h
  = (Ok (fresh (dom h)), <[fresh (dom h) := mk_date y m d (-1)]> h).
Proof.
  intros Hv. by rewrite new_int, (check_date_fields_valid _ _ _ _ Hv).
Qed.

(** The constructor on any three arguments: [int()] of each, in order,
    then the constructor on the three integers. *)
Lemma new_coerce (y m d : pyval) (h : gmap loc date) :
  __new__ y m d h
  = match int y with
    | Raise e => (Raise e, h)
    | Ok y' =>
        match int m with
        | Raise e => (Raise e, h)
        | Ok m' =>
            match int d with
            | Raise e => (Raise e, h)
            | Ok d' => __new__ (VInt y') (VInt m') (VInt d') h
            end
        end
    end.
Proof.
  unfold __new__. unfold_bind. unfold lift.
  destruct (int y) as [y'|]; [|done].
  destruct (int m) as [m'|]; [|done].
  destruct (int d) as [d'|]; [|done].
  done.
Qed.

(** Either the constructor raises and leaves the store as it is, or it
    adds one valid date at a new reference. *)
Lemma new_cases (y m d : pyval) (h : gmap loc date) :
  (∃ e, __new__ y m d h = (Raise e, h))
  ∨ (∃ o, valid_date o ∧ _hashcode o = -1
          ∧ __new__ y m d h = (Ok (fresh (dom h)), <[fresh (dom h) := o]> h)).
Proof.
  rewrite new_coerce.
  destruct (int y) as [y'|]; [|eauto].
  destruct (int m) as [m'|]; [|eauto].
  destruct (int d) as [d'|]; [|eauto].
  rewrite new_int.
  destruct (helpers._check_date_fields _ _ _) as [t|e] eqn:E; [|eauto].
  right. apply (check_date_fields_inv _ _ _ (-1)) in E as [-> Hv].
  by exists (mk_date y' m' d' (-1)).
Qed.

(** C5. The constructor checks the year, then the month, then the day,
    and stops at the first that fails: a year outside
    [MINYEAR..MAXYEAR] raises the year's ValueError whatever the month
    and day are, a month outside 1..12 raises the month's, and a day
    outside 1..days_in_month(year, month) raises the day's; the last day
    of a month is accepted and the day after it is refused. *)
Theorem construction_validates_in_order (y m d : Z) (h : gmap loc date) :
  calendar_covers = true →
  (¬ (MINYEAR ≤ y ≤ MAXYEAR) →
     __new__ (VInt y) (VInt m) (VInt d) h
     = (Raise (ValueError helpers.year_msg (Some y)), h))
  ∧ (MINYEAR ≤ y ≤ MAXYEAR → ¬ (1 ≤ m ≤ 12) →
     __new__ (VInt y) (VInt m) (VInt d) h
     = (Raise (ValueError helpers.month_msg (Some m)), h))
  ∧ (MINYEAR ≤ y ≤ MAXYEAR → 1 ≤ m ≤ 12 →
     ∃ dim,
       helpers._days_in_month y m = Ok dim
       ∧ (¬ (1 ≤ d ≤ dim) →
          __new__ (VInt y) (VInt m) (VInt d) h
          = (Raise (ValueError (helpers.day_msg dim) (Some d)), h))
       ∧ (1 ≤ d ≤ dim →
          __new__ (VInt y) (VInt m) (VInt d) h
          = (Ok (fresh (dom h)), <[fresh (dom h) := mk_date y m d (-1)]> h))
       ∧ __new__ (VInt y) (VInt m) (VInt dim) h
         = (Ok (fresh (dom h)), <[fresh (dom h) := mk_date y m dim (-1)]> h)
       ∧ __new__ (VInt y) (VInt m) (VInt (dim + 1)) h
         = (Raise (ValueError (helpers.day_msg dim) (Some (dim + 1))), h)).
Proof.
  intros Hc. split; [|split].
  - intros Hy. rewrite new_int. unfold helpers._check_date_fields. simpl.
    by rewrite (in_range_false _ _ _ Hy).
  - intros Hy Hm. rewrite new_int. unfold helpers._check_date_fields. simpl.
    by rewrite (in_range_true _ _ _ Hy), (in_range_false _ _ _ Hm).
  - intros Hy Hm.
    destruct (calendar_covers_lookup y m Hc Hy Hm) as (dim & Hdim & Hpos).
    exists dim. split; [done|].
    assert (Hbad : ∀ d', ¬ (1 ≤ d' ≤ dim) →
              __new__ (VInt y) (VInt m) (VInt d') h
              = (Raise (ValueError (helpers.day_msg dim) (Some d')), h)).
    { intros d' Hd. rewrite new_int. unfold helpers._check_date_fields. simpl.
      rewrite (in_range_true _ _ _ Hy), (in_range_true _ _ _ Hm), Hdim. simpl.
      by rewrite (in_range_false _ _ _ Hd). }
    assert (Hgood : ∀ d', 1 ≤ d' ≤ dim →
              __new__ (VInt y) (VInt m) (VInt d') h
              = (Ok (fresh (dom h)),
                 <[fresh (dom h) := mk_date y m d' (-1)]> h)).
    { intros d' Hd. apply new_valid. repeat split; simpl; try lia.
      exists dim. split; [done|lia]. }
    repeat split.
    + apply Hbad.
    + apply Hgood.
    + apply Hgood. lia.
    + apply Hbad. lia.
Qed.

End construction.

Lemma construction_validates_in_order_witness :
  __new__ (VInt 2080) (VInt 13) (VInt 40) ∅
  = (Raise (ValueError "year must be in 2077..2079" (Some 2080)), ∅)
  ∧ __new__ (VInt 2078) (VInt 13) (VInt 40) ∅
    = (Raise (ValueError "month must be in 1..12" (Some 13)), ∅)
  ∧ ∃ dim,
      helpers._days_in_month 2078 8 = Ok dim
      ∧ __new__ (VInt 2078) (VInt 8) (VInt dim) ∅
        = (Ok 1%positive, {[ 1%positive := mk_date 2078 8 dim (-1) ]})
      ∧ __new__ (VInt 2078) (VInt 8) (VInt (dim + 1)) ∅
        = (Raise (ValueError (helpers.day_msg dim) (Some (dim + 1))), ∅).
Proof.
  pose proof (construction_validates_in_order 2080 13 40 ∅ eq_refl)
    as (H1 & _ & _).
  pose proof (construction_validates_in_order 2078 13 40 ∅ eq_refl)
    as (_ & H2 & _).
  pose proof (construction_validates_in_order 2078 8 1 ∅ eq_refl)
    as (_ & _ & H3).
  split; [|split].
  - apply H1. simpl. lia.
  - apply H2; simpl; lia.
  - destruct H3 as (dim & Hdim & _ & _ & Hlast & Hnext); [simpl; lia | lia |].
    exists dim. split; [exact Hdim|]. split; [exact Hlast | exact Hnext].
Defined.

(** ** Coercion of the constructor's arguments *)

Section coercion.
Context {K : Constants} {C : Calendar}.


End coercion.



(** ** The invariant of the dates in the store *)

Section invariant.
Context {K : Constants} {C : Calendar}.

Lemma fresh_lookup (h : gmap loc date) : h !! fresh (dom h) = None.
Proof. apply not_elem_of_dom, is_fresh. Qed.

Lemma deref_cases (l : loc) (h : gmap loc date) :
  (∃ o, h !! l = Some o ∧ deref l h = (Ok o, h))
  ∨ (∃ e, h !! l = None ∧ deref l h = (Raise e, h)).
Proof. unfold deref. destruct (h !! l); eauto. Qed.

Lemma new_footprint (y m d : pyval) (h : gmap loc date) :
  (∃ e, __new__ y m d h = (Raise e, h))
  ∨ (∃ o, valid_date o
          ∧ __new__ y m d h
            = (Ok (fresh (dom h)), <[fresh (dom h) := o]> h)).
Proof.
  destruct (new_cases y m d h) as [?|(o & ? & _ & ?)]; eauto.
Qed.

Lemma from_datetime_date_cases (v : pyval) (h : gmap loc date) :
  (∃ e, from_datetime_date v h = (Raise e, h))
  ∨ (∃ o e, valid_date o
            ∧ from_datetime_date v h
              = (Raise e, <[fresh (dom h) := o]> h))
  ∨ (∃ o, valid_date o
          ∧ from_datetime_date v h
            = (Ok VNone, <[fresh (dom h) := o]> h)).
Proof.
  destruct v; try (left; eexists; reflexivity).
  unfold from_datetime_date. unfold_bind.
  destruct (new_footprint (VInt MINYEAR) (VInt 1) (VInt 1) h)
    as [[e ->]|(o & Hv & ->)]; [eauto|].
  right. unfold lift.
  destruct REFERENCE_DATE_AD as [[ry rm] rd].
  destruct (_actual_datetime.new ry rm rd); [right|left]; eauto.
Qed.

Lemma fromtimestamp_cases (t : option Z) (h : gmap loc date) :
  (∃ e, fromtimestamp t h = (Raise e, h))
  ∨ (∃ o e, valid_date o
            ∧ fromtimestamp t h = (Raise e, <[fresh (dom h) := o]> h))
  ∨ (∃ o, valid_date o
          ∧ fromtimestamp t h = (Ok VNone, <[fresh (dom h) := o]> h)).
Proof.
  destruct t as [t|]; [|left; eexists; reflexivity].
  unfold fromtimestamp.
  destruct (_time.gmtime (t + NEPAL_TIME_UTC_OFFSET)) as [[y m] d].
  unfold_bind. unfold lift.
  destruct (_actual_datetime.new y m d) as [g|e]; [|eauto].
  apply from_datetime_date_cases.
Qed.

Lemma replace_cases (self : loc) (y m d : pyval) (h : gmap loc date) :
  (∃ e, replace self y m d h = (Raise e, h))
  ∨ (∃ o, valid_date o
          ∧ replace self y m d h
            = (Ok (fresh (dom h)), <[fresh (dom h) := o]> h)).
Proof.
  unfold replace. unfold_bind.
  destruct (deref_cases self h) as [(o & _ & ->)|(e & _ & ->)]; [|eauto].
  apply new_footprint.
Qed.

Lemma cmp_store (self : loc) (other : pyval) (h : gmap loc date) :
  (_cmp self other h).2 = h.
Proof.
  unfold _cmp. destruct other; try reflexivity.
  unfold_bind.
  destruct (deref_cases self h) as [(o & _ & ->)|(e & _ & ->)]; [|done].
  by destruct (deref_cases l h) as [(o' & _ & ->)|(e & _ & ->)].
Qed.

(** A comparison leaves the store as it is and answers with a boolean,
    [NotImplemented] or an exception. *)
Lemma answer_of_comparison (f : Z → bool) (self : loc) (other : pyval)
    (h : gmap loc date) :
  let m : M answer :=
    v ← (if isinstance_date other then
           c ← _cmp self other; mret (VBool (f c))
         else mret VNotImplemented);
    mret (AVal v) in
  (m h).2 = h ∧ no_ref h (m h).1.
Proof.
  simpl. destruct (isinstance_date other); [|by split].
  unfold_bind.
  pose proof (cmp_store self other h) as Hs.
  destruct (_cmp self other h) as [[c|e] h']; simpl in *; by subst.
Qed.

Lemma accessor_cases {A} (f : date → A) (g : A → answer) (self : loc)
    (h : gmap loc date) :
  (∀ a l, g a ≠ AVal (VRef l)) →
  let m : M answer := a ← (o ← deref self; mret (f o)); mret (g a) in
  (m h).2 = h ∧ no_ref h (m h).1.
Proof.
  intros Hg. simpl. unfold_bind.
  destruct (deref_cases self h) as [(o & _ & ->)|(e & _ & ->)];
    simpl; split; try done.
  intros l [= Heq]. by apply (Hg (f o) l).
Qed.

Lemma exec_cases (c : call) (h : gmap loc date) :
  ((exec c h).2 = h ∧ no_ref h (exec c h).1)
  ∨ (∃ o, valid_date o
          ∧ (exec c h).2 = <[fresh (dom h) := o]> h
          ∧ ∀ l, (exec c h).1 = Ok (AVal (VRef l)) → l = fresh (dom h)).
Proof.
  destruct c; simpl.
  - unfold_bind.
    destruct (new_footprint year0 month0 day0 h) as [[e ->]|(o & Hv & ->)].
    + left. by split.
    + right. exists o. split; [done|split; [done|]]. by intros l [= <-].
  - unfold_bind.
    destruct (from_datetime_date_cases from_date h)
      as [[e ->]|[(o & e & Hv & ->)|(o & Hv & ->)]].
    + left. by split.
    + right. exists o. split; [done|split; [done|]]. by intros l [=].
    + right. exists o. split; [done|split; [done|]]. by intros l [=].
  - unfold_bind.
    destruct (fromtimestamp_cases t h)
      as [[e ->]|[(o & e & Hv & ->)|(o & Hv & ->)]].
    + left. by split.
    + right. exists o. split; [done|split; [done|]]. by intros l [=].
    + right. exists o. split; [done|split; [done|]]. by intros l [=].
  - unfold_bind. unfold today.
    destruct (fromtimestamp_cases (Some now) h)
      as [[e ->]|[(o & e & Hv & ->)|(o & Hv & ->)]].
    + left. by split.
    + right. exists o. split; [done|split; [done|]]. by intros l [=].
    + right. exists o. split; [done|split; [done|]]. by intros l [=].
  - left. by apply (accessor_cases _year (λ z, AVal (VInt z))).
  - left. by apply (accessor_cases _month (λ z, AVal (VInt z))).
  - left. by apply (accessor_cases _day (λ z, AVal (VInt z))).
  - left. by apply (accessor_cases _ AText).
  - left. by apply (accessor_cases _ AText).
  - left. by apply (accessor_cases _ AText).
  - unfold_bind.
    destruct (replace_cases self year0 month0 day0 h)
      as [[e ->]|(o & Hv & ->)].
    + left. by split.
    + right. exists o. split; [done|split; [done|]]. by intros l [= <-].
  - left. apply (answer_of_comparison (λ c, c =? 0)).
  - left. apply (answer_of_comparison (λ c, c <=? 0)).
  - left. apply (answer_of_comparison (λ c, c <? 0)).
  - left. apply (answer_of_comparison (λ c, c >=? 0)).
  - left. apply (answer_of_comparison (λ c, c >? 0)).
  - left. by split.
  - left. by split.
  - left. by split.
Qed.

(** C3. Whatever public operation runs on a store of valid dates, the
    store it leaves holds valid dates only, every date that was there is
    still there with the fields it had, and a date the operation hands
    back is in the store and valid: its year is in [MINYEAR..MAXYEAR],
    its month in 1..12 and its day in 1..days_in_month(year, month). *)
Theorem public_operations_keep_dates_valid (c : call)
    (h h' : gmap loc date) (r : result answer) :
  store_valid h →
  exec c h = (r, h') →
  store_valid h'
  ∧ (∀ l o, h !! l = Some o → h' !! l = Some o)
  ∧ (∀ l, r = Ok (AVal (VRef l)) →
       ∃ o, h' !! l = Some o
            ∧ MINYEAR ≤ _year o ≤ MAXYEAR
            ∧ 1 ≤ _month o ≤ 12
            ∧ ∃ dim, helpers._days_in_month (_year o) (_month o) = Ok dim
                     ∧ 1 ≤ _day o ≤ dim).
Proof.
  intros Hh E.
  destruct (exec_cases c h) as [[Hs Hr]|(o & Hv & Hs & Hr)];
    rewrite E in Hs, Hr; simpl in Hs, Hr; subst h'.
  - split; [done|split; [done|]]. intros l ->. by destruct (Hr l).
  - split; [|split].
    + by apply map_Forall_insert_2.
    + intros l o' Hl. apply (lookup_weaken h); [done|].
      apply insert_subseteq, fresh_lookup.
    + intros l Hl. rewrite (Hr l Hl). exists o.
      split; [apply lookup_insert_eq | exact Hv].
Qed.

End invariant.

Lemma public_operations_keep_dates_valid_witness :
  ∃ o, ({[ 1%positive := mk_date 2078 9 1 (-1) ]} : gmap loc date) !! 1%positive
       = Some o
       ∧ 2077 ≤ _year o ≤ 2079
       ∧ 1 ≤ _month o ≤ 12
       ∧ ∃ dim, helpers._days_in_month (_year o) (_month o) = Ok dim
                ∧ 1 ≤ _day o ≤ dim.
Proof.
  refine (proj2 (proj2 (public_operations_keep_dates_valid
            (call_new (VInt 2078) (VInt 9) (VInt 1)) ∅
            {[ 1%positive := mk_date 2078 9 1 (-1) ]}
            (Ok (AVal (VRef 1%positive))) _ _)) 1%positive _).
  - apply map_Forall_empty.
  - reflexivity.
  - reflexivity.
Defined.

(** ** replace *)

Section replace.
Context {K : Constants} {C : Calendar}.

Lemma tuple_eq_refl (x : list Z) : tuple_eq x x = true.
Proof. induction x as [|a x IH]; simpl; [done|]. by rewrite Z.eqb_refl. Qed.



End replace.


(** ** Comparison with something that is no date *)

Section not_comparable.
Context {K : Constants} {C : Calendar}.

(** C7. Compared with a value that is no date, each of [==], [<=], [<],
    [>=] and [>] answers [NotImplemented]: no exception is raised and the
    store is not touched. *)
Theorem comparison_with_other_type (self : loc) (other : pyval)
    (h : gmap loc date) :
  isinstance_date other = false →
  __eq__ self other h = (Ok VNotImplemented, h)
  ∧ __le__ self other h = (Ok VNotImplemented, h)
  ∧ __lt__ self other h = (Ok VNotImplemented, h)
  ∧ __ge__ self other h = (Ok VNotImplemented, h)
  ∧ __gt__ self other h = (Ok VNotImplemented, h).
Proof.
  intros Hother.
  unfold __eq__, __le__, __lt__, __ge__, __gt__. by rewrite Hother.
Qed.

End not_comparable.

Lemma comparison_with_other_type_witness :
  let h : gmap loc date := {[ 1%positive := mk_date 2078 9 1 (-1) ]} in
  __eq__ 1%positive (VInt 5) h = (Ok VNotImplemented, h)
  ∧ __le__ 1%positive (VInt 5) h = (Ok VNotImplemented, h)
  ∧ __lt__ 1%positive (VInt 5) h = (Ok VNotImplemented, h)
  ∧ __ge__ 1%positive (VInt 5) h = (Ok VNotImplemented, h)
  ∧ __gt__ 1%positive (VInt 5) h = (Ok VNotImplemented, h).
Proof.
  intros h. apply (comparison_with_other_type 1%positive (VInt 5) h).
  reflexivity.
Defined.

(** ** Arithmetic *)

Section arithmetic.
Context {K : Constants} {C : Calendar}.

(** C1. [date + timedelta], [timedelta + date] and [date - date] hand
    back [None], whatever the operands: no date comes out of an addition
    and no number of days out of a subtraction. *)
Theorem addition_and_subtraction_return_none (self : loc) (other : pyval)
    (h : gmap loc date) :
  __add__ self other h = (Ok VNone, h)
  ∧ __radd__ self other h = (Ok VNone, h)
  ∧ __sub__ self other h = (Ok VNone, h).
Proof. by repeat split. Qed.

(** C2. [from_datetime_date] never hands back a date: it raises, or it
    builds the epoch date [MINYEAR-01-01] and returns [None], which is
    what the addition of the day offset to the epoch evaluates to. *)
Theorem from_datetime_date_returns_no_date (from_date : pyval)
    (h : gmap loc date) :
  (∃ e h', from_datetime_date from_date h = (Raise e, h'))
  ∨ (∃ h', from_datetime_date from_date h = (Ok VNone, h')).
Proof.
  destruct (from_datetime_date_cases from_date h)
    as [[e ->]|[(o & e & _ & ->)|(o & _ & ->)]]; eauto.
Qed.

End arithmetic.

(** On the excerpt, 16 December 2021 is 1 Poush 2078: the conversion
    builds the epoch date and returns [None]. *)
Example from_datetime_date_2021_12_16 :
  from_datetime_date (VADDate (_actual_datetime.mk 2021 12 16)) ∅
  = (Ok VNone, {[ 1%positive := mk_date 2077 1 1 (-1) ]}).
Proof. reflexivity. Qed.

Example add_one_day :
  (l ← __new__ (VInt 2078) (VInt 9) (VInt 1); __add__ l (VTimedelta 1 0 0)) ∅
  = (Ok VNone, {[ 1%positive := mk_date 2078 9 1 (-1) ]}).
Proof. reflexivity. Qed.

(** ** isoformat *)

Section rendering.
Context {K : Constants} {C : Calendar}.

Lemma forallb_seqZ (f : Z → bool) (a n x : Z) :
  forallb f (seqZ a n) = true → a ≤ x < a + n → f x = true.
Proof.
  intros Hf Hx. apply Is_true_true_2, forallb_True in Hf.
  rewrite Forall_forall in Hf. apply Is_true_true_1, Hf, elem_of_seqZ. lia.
Qed.

Lemma fmt_0d_two_digits (n : Z) :
  0 ≤ n ≤ 99 → fmt_0d 2 n = two_digits n.
Proof.
  intros Hn. apply String.eqb_eq.
  apply (forallb_seqZ (λ n, String.eqb (fmt_0d 2 n) (two_digits n)) 0 100);
    [vm_compute; reflexivity | lia].
Qed.

Lemma str_at_most_four (y : Z) :
  0 ≤ y ≤ 9999 → (String.length (str y) ≤ 4)%nat.
Proof.
  intros Hy. apply Nat.leb_le.
  apply (forallb_seqZ (λ y, String.length (str y) <=? 4)%nat  0 10000);
    [vm_compute; reflexivity | lia].
Qed.

Lemma length_append (s1 s2 : string) :
  String.length (s1 +:+ s2) = (String.length s1 + String.length s2)%nat.
Proof. induction s1 as [|c s1 IH]; simpl; [done|]. by rewrite IH. Qed.

Lemma length_zeros (k : nat) : String.length (zeros k) = k.
Proof. induction k as [|k IH]; simpl; [done|]. f_equal. exact IH. Qed.

Lemma fmt_0d_nonneg (width : nat) (z : Z) :
  0 ≤ z →
  fmt_0d width z = zeros (width - String.length (str z)) +:+ str z.
Proof.
  intros Hz. unfold fmt_0d, zeros.
  replace (z <? 0) with false by (symmetry; apply Z.ltb_ge; lia).
  rewrite Z.abs_eq by done. simpl. by rewrite Nat.sub_0_r.
Qed.

Lemma str_at_most_two (n : Z) :
  0 ≤ n ≤ 99 → (String.length (str n) ≤ 2)%nat.
Proof.
  intros Hn. apply Nat.leb_le.
  apply (forallb_seqZ (λ n, String.length (str n) <=? 2)%nat 0 100);
    [vm_compute; reflexivity | lia].
Qed.

Lemma length_zero_pad (width : nat) (z : Z) :
  String.length (zero_pad width z)
  = (width `max` String.length (str z))%nat.
Proof. unfold zero_pad. rewrite length_append, length_zeros. lia. Qed.

(** C8. For a valid date of a year that is not negative, [isoformat] is
    the year, a dash, the month, a dash and the day, each in decimal and
    padded with zeros on the left, the year to four digits and the month
    and the day to two. The month takes two characters; up to the year
    9999 and the day 99 the whole takes ten, month and day being their two
    decimal digits. The date 2078-9-1 is rendered "2078-09-01". *)
Theorem isoformat_zero_padded (self : loc) (o : date) (h : gmap loc date) :
  h !! self = Some o →
  valid_date o →
  0 ≤ _year o →
  let s := zero_pad 4 (_year o) +:+ "-" +:+ zero_pad 2 (_month o) +:+ "-"
           +:+ zero_pad 2 (_day o) in
  isoformat self h = (Ok s, h)
  ∧ String.length (zero_pad 4 (_year o))
    = (4 `max` String.length (str (_year o)))%nat
  ∧ String.length (zero_pad 2 (_month o)) = 2%nat
  ∧ String.length (zero_pad 2 (_day o))
    = (2 `max` String.length (str (_day o)))%nat
  ∧ (_year o ≤ 9999 → _day o ≤ 99 →
     String.length s = 10%nat
     ∧ zero_pad 2 (_month o) = two_digits (_month o)
     ∧ zero_pad 2 (_day o) = two_digits (_day o))
  ∧ (_year o = 2078 → _month o = 9 → _day o = 1 → s = "2078-09-01").
Proof.
  intros Hself (Hy & Hm & dim & _ & Hd) Hy0 s.
  split; [|split; [|split; [|split; [|split]]]].
  - unfold isoformat. unfold_bind. unfold deref. rewrite Hself. simpl.
    unfold mret, M_ret, ret. do 2 f_equal. unfold s, zero_pad.
    by rewrite !fmt_0d_nonneg by lia.
  - apply length_zero_pad.
  - rewrite length_zero_pad.
    pose proof (str_at_most_two (_month o)). lia.
  - apply length_zero_pad.
  - intros Hy9 Hd99. split; [|split].
    + unfold s. rewrite !length_append, !length_zero_pad. simpl.
      pose proof (str_at_most_four (_year o) (conj Hy0 Hy9)).
      pose proof (str_at_most_two (_month o)).
      pose proof (str_at_most_two (_day o)). lia.
    + unfold zero_pad. rewrite <- fmt_0d_nonneg by lia.
      apply fmt_0d_two_digits. lia.
    + unfold zero_pad. rewrite <- fmt_0d_nonneg by lia.
      apply fmt_0d_two_digits. lia.
  - intros Ey Em Ed. unfold s. rewrite Ey, Em, Ed. reflexivity.
Qed.

End rendering.

Lemma isoformat_zero_padded_witness :
  isoformat 1%positive {[ 1%positive := mk_date 2078 9 1 (-1) ]}
  = (Ok "2078-09-01", {[ 1%positive := mk_date 2078 9 1 (-1) ]}).
Proof.
  destruct (isoformat_zero_padded 1%positive (mk_date 2078 9 1 (-1))
              {[ 1%positive := mk_date 2078 9 1 (-1) ]}) as (H1 & _).
  - reflexivity.
  - split; [simpl; lia|]. split; [simpl; lia|].
    exists 30. split; [reflexivity | simpl; lia].
  - simpl. lia.
  - exact H1.
Defined.

(** ** Order *)

Section order.
Context {K : Constants} {C : Calendar}.








Section covered.
Hypothesis Hcovers : calendar_covers = true.









End covered.



(** Were the whole years counted from the year after [MINYEAR] on, the
    first day of [MINYEAR] and the first day of the next year would get
    the same ordinal. *)
Remark to_ordinal_from_next_year_collides (hc hc' : Z) :
  to_ordinal_from (MINYEAR + 1) (mk_date MINYEAR 1 1 hc) = 1
  ∧ to_ordinal_from (MINYEAR + 1) (mk_date (MINYEAR + 1) 1 1 hc') = 1.
Proof.
  unfold to_ordinal_from, days_before_year_from, days_before_month. simpl.
  by rewrite !(seqZ_nil (MINYEAR + 1)) by lia.
Qed.


End order.



(** * Further properties of the date class *)

(** ** _compare on tuples of any length *)

Section tuples.

Lemma tuple_eq_spec (x y : list Z) : tuple_eq x y = true ↔ x = y.
Proof.
  revert y. induction x as [|a x IH]; intros [|b y]; simpl; try done.
  rewrite andb_true_iff, Z.eqb_eq, IH. split.
  - by intros [-> ->].
  - by intros [= -> ->].
Qed.

Lemma tuple_gt_irrefl (x : list Z) : tuple_gt x x = false.
Proof. induction x as [|a x IH]; simpl; [done|]. by rewrite Z.eqb_refl. Qed.

(** Of two different tuples exactly one is greater than the other. *)
Lemma tuple_gt_flip (x y : list Z) :
  tuple_eq x y = false → tuple_gt y x = negb (tuple_gt x y).
Proof.
  revert y. induction x as [|a x IH]; intros [|b y]; simpl; try done.
  rewrite (Z.eqb_sym b a).
  destruct (Z.eqb_spec a b) as [->|Hne]; simpl.
  - apply IH.
  - intros _. destruct (Z.gtb_spec a b), (Z.gtb_spec b a); simpl; lia.
Qed.

Lemma tuple_gt_trans (x y z : list Z) :
  tuple_gt x y = true → tuple_gt y z = true → tuple_gt x z = true.
Proof.
  revert y z. induction x as [|a x IH]; intros [|b y] [|c z]; simpl;
    try done.
  destruct (Z.eqb_spec a b) as [->|Hab].
  - destruct (Z.eqb_spec b c) as [->|Hbc]; [apply IH|done].
  - destruct (Z.eqb_spec b c) as [->|Hbc].
    + intros Hgt _. by rewrite (proj2 (Z.eqb_neq a c)) by done.
    + intros Hab' Hbc'. apply Z.gtb_gt in Hab', Hbc'.
      rewrite (proj2 (Z.eqb_neq a c)) by lia. apply Z.gtb_gt. lia.
Qed.

Lemma compare_values (x y : list Z) :
  (helpers._compare x y = 0 ∧ x = y)
  ∨ (helpers._compare x y = 1 ∧ tuple_eq x y = false ∧ tuple_gt x y = true)
  ∨ (helpers._compare x y = -1 ∧ tuple_eq x y = false
     ∧ tuple_gt y x = true).
Proof.
  unfold helpers._compare.
  destruct (tuple_eq x y) eqn:E.
  - left. split; [done|]. by apply tuple_eq_spec.
  - right. pose proof (tuple_gt_flip x y E) as Hflip.
    destruct (tuple_gt x y); simpl in Hflip; [left|right]; done.
Qed.

Lemma compare_range (x y : list Z) :
  helpers._compare x y = -1 ∨ helpers._compare x y = 0
  ∨ helpers._compare x y = 1.
Proof.
  destruct (compare_values x y) as [[E _]|[(E & _)|(E & _)]]; auto.
Qed.

Lemma compare_zero (x y : list Z) : helpers._compare x y = 0 ↔ x = y.
Proof.
  destruct (compare_values x y) as [[E ->]|[(E & Hne & _)|(E & Hne & _)]];
    rewrite E; split; try done; intros ->; by rewrite tuple_eq_refl in Hne.
Qed.

Lemma tuple_eq_sym (x y : list Z) : tuple_eq y x = tuple_eq x y.
Proof.
  destruct (tuple_eq x y) eqn:E.
  - apply tuple_eq_spec in E as ->. apply tuple_eq_refl.
  - destruct (tuple_eq y x) eqn:E'; [|done].
    apply tuple_eq_spec in E' as ->. by rewrite tuple_eq_refl in E.
Qed.

Lemma compare_flip (x y : list Z) :
  helpers._compare y x = - helpers._compare x y.
Proof.
  unfold helpers._compare. rewrite (tuple_eq_sym x y).
  destruct (tuple_eq x y) eqn:E; [done|].
  rewrite (tuple_gt_flip x y E). by destruct (tuple_gt x y).
Qed.

Lemma compare_gt (x y : list Z) :
  helpers._compare x y = 1 ↔ tuple_gt x y = true.
Proof.
  unfold helpers._compare. destruct (tuple_eq x y) eqn:E.
  - apply tuple_eq_spec in E as ->. by rewrite tuple_gt_irrefl.
  - by destruct (tuple_gt x y).
Qed.

Lemma compare_gt_trans (x y z : list Z) :
  helpers._compare x y = 1 → helpers._compare y z = 1 →
  helpers._compare x z = 1.
Proof.
  rewrite !compare_gt. apply tuple_gt_trans.
Qed.

Lemma compare_le_trans (x y z : list Z) :
  helpers._compare x y ≤ 0 → helpers._compare y z ≤ 0 →
  helpers._compare x z ≤ 0.
Proof.
  intros Hxy Hyz.
  destruct (compare_range x z) as [Hxz|[Hxz|Hxz]]; [lia|lia|]. exfalso.
  destruct (compare_range x y) as [E|[E|E]];
    [|apply compare_zero in E as ->; lia|lia].
  destruct (compare_range y z) as [E'|[E'|E']];
    [|apply compare_zero in E' as ->; lia|lia].
  pose proof (compare_flip y z) as Hzy.
  assert (Hzy' : helpers._compare z y = 1) by lia.
  pose proof (compare_gt_trans x z y Hxz Hzy'). lia.
Qed.

(** X1. On two tuples of integers of any lengths, [_compare] answers -1,
    0 or 1; it answers 0 exactly when the two tuples are the same, and
    exchanging the arguments changes the sign of the answer. *)
Theorem compare_sign_and_symmetry (x y : list Z) :
  (helpers._compare x y = -1 ∨ helpers._compare x y = 0
   ∨ helpers._compare x y = 1)
  ∧ (helpers._compare x y = 0 ↔ x = y)
  ∧ helpers._compare y x = - helpers._compare x y.
Proof.
  split; [apply compare_range|].
  split; [apply compare_zero | apply compare_flip].
Qed.

(** X2. [_compare] orders the tuples: when it puts [x] after [y] and [y]
    after [z] it puts [x] after [z], and when it puts [x] not after [y]
    and [y] not after [z] it puts [x] not after [z]. *)
Theorem compare_transitive (x y z : list Z) :
  (helpers._compare x y = 1 → helpers._compare y z = 1 →
   helpers._compare x z = 1)
  ∧ (helpers._compare x y ≤ 0 → helpers._compare y z ≤ 0 →
     helpers._compare x z ≤ 0).
Proof.
  split; [apply compare_gt_trans | apply compare_le_trans].
Qed.

End tuples.

Lemma compare_transitive_witness :
  helpers._compare [2078; 9; 1] [2077; 12; 30] = 1
  ∧ helpers._compare [2077; 1] [2078; 2; 8] ≤ 0.
Proof.
  pose proof (compare_transitive [2078; 9; 1] [2078; 2; 8] [2077; 12; 30])
    as [H1 _].
  pose proof (compare_transitive [2077; 1] [2077; 1; 1] [2078; 2; 8])
    as [_ H2].
  split.
  - apply H1; reflexivity.
  - apply H2; vm_compute; discriminate.
Defined.

(** ** The comparison operators on two dates *)

Section operators.
Context {K : Constants} {C : Calendar}.

Definition fields (o : date) : list Z := [_year o; _month o; _day o].

Lemma cmp_objects (a b : loc) (oa ob : date) (h : gmap loc date) :
  h !! a = Some oa → h !! b = Some ob →
  _cmp a (VRef b) h = (Ok (helpers._compare (fields oa) (fields ob)), h).
Proof.
  intros Ha Hb. unfold _cmp. unfold_bind. unfold deref.
  by rewrite Ha, Hb.
Qed.

(** Each operator on two dates of the store: the test of the operator on
    what [_compare] answers, the store as it was. *)
Lemma operators_on_dates (a b : loc) (oa ob : date) (h : gmap loc date) :
  h !! a = Some oa → h !! b = Some ob →
  let c := helpers._compare (fields oa) (fields ob) in
  __eq__ a (VRef b) h = (Ok (VBool (c =? 0)), h)
  ∧ __le__ a (VRef b) h = (Ok (VBool (c <=? 0)), h)
  ∧ __lt__ a (VRef b) h = (Ok (VBool (c <? 0)), h)
  ∧ __ge__ a (VRef b) h = (Ok (VBool (c >=? 0)), h)
  ∧ __gt__ a (VRef b) h = (Ok (VBool (c >? 0)), h).
Proof.
  intros Ha Hb c. pose proof (cmp_objects a b oa ob h Ha Hb) as Hc.
  unfold __eq__, __le__, __lt__, __ge__, __gt__. cbn [isinstance_date].
  unfold_bind. by rewrite Hc.
Qed.

(** X3. For two dates of the store the five operators answer booleans and
    leave the store alone; exactly one of [a < b], [a == b], [a > b] is
    true, [<=] is [<] or [==] and [>=] is [>] or [==]; and [a < b] is
    [b > a], [a <= b] is [b >= a], [a == b] is [b == a]. *)
Theorem comparison_operators_agree (a b : loc) (oa ob : date)
    (h : gmap loc date) :
  h !! a = Some oa → h !! b = Some ob →
  ∃ lt eq gt : bool,
    __lt__ a (VRef b) h = (Ok (VBool lt), h)
    ∧ __eq__ a (VRef b) h = (Ok (VBool eq), h)
    ∧ __gt__ a (VRef b) h = (Ok (VBool gt), h)
    ∧ __le__ a (VRef b) h = (Ok (VBool (lt || eq)), h)
    ∧ __ge__ a (VRef b) h = (Ok (VBool (gt || eq)), h)
    ∧ ((lt, eq, gt) = (true, false, false)
       ∨ (lt, eq, gt) = (false, true, false)
       ∨ (lt, eq, gt) = (false, false, true))
    ∧ __gt__ b (VRef a) h = (Ok (VBool lt), h)
    ∧ __eq__ b (VRef a) h = (Ok (VBool eq), h)
    ∧ __lt__ b (VRef a) h = (Ok (VBool gt), h)
    ∧ __ge__ b (VRef a) h = (Ok (VBool (lt || eq)), h)
    ∧ __le__ b (VRef a) h = (Ok (VBool (gt || eq)), h).
Proof.
  intros Ha Hb.
  destruct (operators_on_dates a b oa ob h Ha Hb) as (E1 & E2 & E3 & E4 & E5).
  destruct (operators_on_dates b a ob oa h Hb Ha) as (F1 & F2 & F3 & F4 & F5).
  pose proof (compare_range (fields oa) (fields ob)) as Hc.
  rewrite (compare_flip (fields oa) (fields ob)) in F1, F2, F3, F4, F5.
  rewrite E1, E2, E3, E4, E5, F1, F2, F3, F4, F5.
  destruct Hc as [Ec|[Ec|Ec]]; rewrite Ec.
  - exists true, false, false. repeat split; auto.
  - exists false, true, false. repeat split; auto.
  - exists false, false, true. repeat split; auto.
Qed.

(** X4. Two dates of the store are [==] exactly when they have the same
    year, month and day. *)
Theorem eq_is_equality_of_fields (a b : loc) (oa ob : date)
    (h : gmap loc date) :
  h !! a = Some oa → h !! b = Some ob →
  __eq__ a (VRef b) h = (Ok (VBool true), h)
  ↔ _year oa = _year ob ∧ _month oa = _month ob ∧ _day oa = _day ob.
Proof.
  intros Ha Hb.
  destruct (operators_on_dates a b oa ob h Ha Hb) as (E1 & _).
  pose proof (compare_zero (fields oa) (fields ob)) as Heq.
  rewrite E1. split.
  - intros [= Hc]. apply Z.eqb_eq, Heq in Hc.
    by injection Hc as -> -> ->.
  - intros (Hy & Hm & Hd).
    assert (Hf : fields oa = fields ob) by (unfold fields; congruence).
    apply Heq in Hf. by rewrite Hf.
Qed.

(** X5. [<] and [<=] on dates of the store are transitive. *)
Theorem lt_le_transitive (a b c : loc) (oa ob oc : date)
    (h : gmap loc date) :
  h !! a = Some oa → h !! b = Some ob → h !! c = Some oc →
  (__lt__ a (VRef b) h = (Ok (VBool true), h) →
   __lt__ b (VRef c) h = (Ok (VBool true), h) →
   __lt__ a (VRef c) h = (Ok (VBool true), h))
  ∧ (__le__ a (VRef b) h = (Ok (VBool true), h) →
     __le__ b (VRef c) h = (Ok (VBool true), h) →
     __le__ a (VRef c) h = (Ok (VBool true), h)).
Proof.
  intros Ha Hb Hc.
  destruct (operators_on_dates a b oa ob h Ha Hb) as (_ & E2 & E3 & _).
  destruct (operators_on_dates b c ob oc h Hb Hc) as (_ & F2 & F3 & _).
  destruct (operators_on_dates a c oa oc h Ha Hc) as (_ & G2 & G3 & _).
  rewrite E2, E3, F2, F3, G2, G3. split.
  - intros [= Hab] [= Hbc]. apply Z.ltb_lt in Hab, Hbc.
    pose proof (compare_range (fields ob) (fields oa)) as Hv1.
    pose proof (compare_flip (fields oa) (fields ob)) as S1.
    pose proof (compare_range (fields oc) (fields ob)) as Hv2.
    pose proof (compare_flip (fields ob) (fields oc)) as S2.
    pose proof (compare_flip (fields oa) (fields oc)) as S3.
    assert (helpers._compare (fields oc) (fields oa) = 1)
      by (apply (compare_gt_trans _ (fields ob)); lia).
    do 3 f_equal. apply Z.ltb_lt. lia.
  - intros [= Hab] [= Hbc]. apply Z.leb_le in Hab, Hbc.
    do 3 f_equal. apply Z.leb_le.
    by apply (compare_le_trans _ (fields ob)).
Qed.

End operators.

Lemma comparison_operators_agree_witness :
  let h : gmap loc date :=
    {[ 1%positive := mk_date 2078 9 1 (-1);
       2%positive := mk_date 2078 2 8 (-1) ]} in
  ∃ lt eq gt : bool,
    __lt__ 1%positive (VRef 2%positive) h = (Ok (VBool lt), h)
    ∧ __eq__ 1%positive (VRef 2%positive) h = (Ok (VBool eq), h)
    ∧ __gt__ 1%positive (VRef 2%positive) h = (Ok (VBool gt), h)
    ∧ __lt__ 2%positive (VRef 1%positive) h = (Ok (VBool gt), h).
Proof.
  intros h.
  destruct (comparison_operators_agree 1%positive 2%positive
              (mk_date 2078 9 1 (-1)) (mk_date 2078 2 8 (-1)) h)
    as (lt & eq & gt & H1 & H2 & H3 & _ & _ & _ & _ & _ & H9 & _).
  - reflexivity.
  - reflexivity.
  - exists lt, eq, gt. repeat split; assumption.
Defined.

Lemma eq_is_equality_of_fields_witness :
  let h : gmap loc date :=
    {[ 1%positive := mk_date 2078 9 1 (-1);
       2%positive := mk_date 2078 9 1 7 ]} in
  __eq__ 1%positive (VRef 2%positive) h = (Ok (VBool true), h).
Proof.
  intros h.
  apply (eq_is_equality_of_fields 1%positive 2%positive
           (mk_date 2078 9 1 (-1)) (mk_date 2078 9 1 7) h);
    [reflexivity | reflexivity | repeat split].
Defined.

Lemma lt_le_transitive_witness :
  let h : gmap loc date :=
    {[ 1%positive := mk_date 2077 12 30 (-1);
       2%positive := mk_date 2078 2 8 (-1);
       3%positive := mk_date 2078 9 1 (-1) ]} in
  __lt__ 1%positive (VRef 3%positive) h = (Ok (VBool true), h)
  ∧ __le__ 1%positive (VRef 3%positive) h = (Ok (VBool true), h).
Proof.
  intros h.
  destruct (lt_le_transitive 1%positive 2%positive 3%positive
              (mk_date 2077 12 30 (-1)) (mk_date 2078 2 8 (-1))
              (mk_date 2078 9 1 (-1)) h) as [H1 H2];
    [reflexivity | reflexivity | reflexivity |].
  split; [apply H1 | apply H2]; reflexivity.
Defined.

(** ** Construction, accessors and replace *)

Section accessors.
Context {K : Constants} {C : Calendar}.

(** X6. On three integers the constructor succeeds exactly when they make
    a valid date, whatever the store; when it raises, the store is as it
    was. *)
Theorem construction_succeeds_iff_valid (y m d : Z) (h : gmap loc date) :
  ((∃ l h', __new__ (VInt y) (VInt m) (VInt d) h = (Ok l, h'))
   ↔ valid_date (mk_date y m d (-1)))
  ∧ (∀ e h', __new__ (VInt y) (VInt m) (VInt d) h = (Raise e, h') → h' = h).
Proof.
  rewrite new_int.
  destruct (helpers._check_date_fields (VInt y) (VInt m) (VInt d))
    as [t|e] eqn:E.
  - apply (check_date_fields_inv _ _ _ (-1)) in E as [-> Hv].
    split; [|done]. split; [done|]. intros _. eauto.
  - split; [|by intros e' h' [= _ <-]]. split.
    + by intros (l & h' & [=]).
    + intros Hv. by rewrite (check_date_fields_valid _ _ _ _ Hv) in E.
Qed.

Lemma accessors_at (l : loc) (o : date) (h : gmap loc date) :
  h !! l = Some o →
  year l h = (Ok (_year o), h)
  ∧ month l h = (Ok (_month o), h)
  ∧ day l h = (Ok (_day o), h).
Proof.
  intros Hl. unfold year, month, day. unfold_bind. unfold deref.
  by rewrite Hl.
Qed.

Lemma new_result (y m d : pyval) (h h' : gmap loc date) (l : loc) :
  __new__ y m d h = (Ok l, h') →
  ∃ y' m' d',
    int y = Ok y' ∧ int m = Ok m' ∧ int d = Ok d'
    ∧ l = fresh (dom h)
    ∧ h' = <[l := mk_date y' m' d' (-1)]> h.
Proof.
  rewrite new_coerce.
  destruct (int y) as [y'|]; [|done].
  destruct (int m) as [m'|]; [|done].
  destruct (int d) as [d'|]; [|done].
  rewrite new_int.
  destruct (helpers._check_date_fields _ _ _) as [t|e] eqn:E; [|done].
  apply (check_date_fields_inv _ _ _ (-1)) in E as [-> _]. simpl.
  intros [= <- <-]. by exists y', m', d'.
Qed.

(** X7. When the constructor succeeds, the reference it returns was free
    before, the store has one date more and the others as they were, and
    the accessors [year], [month] and [day] read back [int()] of the three
    arguments. *)
Theorem construction_read_back (y m d : pyval) (h h' : gmap loc date)
    (l : loc) :
  __new__ y m d h = (Ok l, h') →
  ∃ y' m' d',
    int y = Ok y' ∧ int m = Ok m' ∧ int d = Ok d'
    ∧ h !! l = None
    ∧ h' = <[l := mk_date y' m' d' (-1)]> h
    ∧ year l h' = (Ok y', h')
    ∧ month l h' = (Ok m', h')
    ∧ day l h' = (Ok d', h').
Proof.
  intros Hnew.
  apply new_result in Hnew as (y' & m' & d' & Hy & Hm & Hd & -> & ->).
  exists y', m', d'.
  split; [done|]. split; [done|]. split; [done|].
  split; [apply fresh_lookup|]. split; [done|].
  apply (accessors_at _ (mk_date y' m' d' (-1))), lookup_insert_eq.
Qed.

(** X8. When [replace] succeeds, the date it is called on is still in the
    store with its fields, the reference returned is another one, and
    each field of the new date is [int()] of the value given for it, or
    the field of the original date where [None] was given. *)
Theorem replace_fields (self l : loc) (o : date) (y m d : pyval)
    (h h' : gmap loc date) :
  h !! self = Some o →
  replace self y m d h = (Ok l, h') →
  ∃ o', h' !! l = Some o'
        ∧ l ≠ self
        ∧ h' !! self = Some o
        ∧ (if is_none y then _year o' = _year o else int y = Ok (_year o'))
        ∧ (if is_none m then _month o' = _month o
           else int m = Ok (_month o'))
        ∧ (if is_none d then _day o' = _day o else int d = Ok (_day o')).
Proof.
  intros Hself. unfold replace. unfold_bind. unfold deref. rewrite Hself.
  intros Hnew. apply new_result in Hnew
    as (y' & m' & d' & Hy & Hm & Hd & -> & ->).
  pose proof (fresh_lookup h) as Hl.
  assert (Hne : fresh (dom h) ≠ self) by (intros E; congruence).
  exists (mk_date y' m' d' (-1)).
  split; [apply lookup_insert_eq|]. split; [done|].
  split; [by rewrite lookup_insert_ne|]. simpl.
  destruct (is_none y), (is_none m), (is_none d); simpl in *;
    repeat split; congruence.
Qed.

(** X9. [fromtimestamp] and [today] never hand back a date: [None] for a
    timestamp is a TypeError with the store untouched, and any timestamp
    ends in an exception or in [None]. *)
Theorem fromtimestamp_returns_no_date (t : option Z) (now : Z)
    (h : gmap loc date) :
  (∃ msg, fromtimestamp None h = (Raise (TypeError msg), h))
  ∧ ((∃ e h', fromtimestamp t h = (Raise e, h'))
     ∨ (∃ h', fromtimestamp t h = (Ok VNone, h')))
  ∧ ((∃ e h', today now h = (Raise e, h'))
     ∨ (∃ h', today now h = (Ok VNone, h'))).
Proof.
  split; [by eexists|]. split.
  - destruct (fromtimestamp_cases t h)
      as [[e ->]|[(o & e & _ & ->)|(o & _ & ->)]]; eauto.
  - unfold today. destruct (fromtimestamp_cases (Some now) h)
      as [[e ->]|[(o & e & _ & ->)|(o & _ & ->)]]; eauto.
Qed.

End accessors.

Lemma construction_succeeds_iff_valid_witness :
  ∃ l h', __new__ (VInt 2079) (VInt 3) (VInt 32) ∅ = (Ok l, h').
Proof.
  apply (construction_succeeds_iff_valid 2079 3 32 ∅).
  split; [simpl; lia|]. split; [simpl; lia|].
  exists 32. split; [reflexivity | simpl; lia].
Defined.

Lemma construction_read_back_witness :
  ∃ y' m' d',
    int (VFloat (finite 4157 (-1))) = Ok y' ∧ int (VBool true) = Ok m'
    ∧ int (VInt 31) = Ok d'
    ∧ (∅ : gmap loc date) !! 1%positive = None
    ∧ {[ 1%positive := mk_date 2078 1 31 (-1) ]}
      = <[1%positive := mk_date y' m' d' (-1)]> (∅ : gmap loc date)
    ∧ year 1%positive {[ 1%positive := mk_date 2078 1 31 (-1) ]}
      = (Ok y', {[ 1%positive := mk_date 2078 1 31 (-1) ]})
    ∧ month 1%positive {[ 1%positive := mk_date 2078 1 31 (-1) ]}
      = (Ok m', {[ 1%positive := mk_date 2078 1 31 (-1) ]})
    ∧ day 1%positive {[ 1%positive := mk_date 2078 1 31 (-1) ]}
      = (Ok d', {[ 1%positive := mk_date 2078 1 31 (-1) ]}).
Proof.
  apply (construction_read_back (VFloat (finite 4157 (-1))) (VBool true)
           (VInt 31) ∅).
  reflexivity.
Defined.

Lemma replace_fields_witness :
  ∃ o', ({[ 1%positive := mk_date 2078 9 1 (-1);
            2%positive := mk_date 2078 9 30 (-1) ]} : gmap loc date)
        !! 2%positive = Some o'
        ∧ 2%positive ≠ 1%positive
        ∧ ({[ 1%positive := mk_date 2078 9 1 (-1);
              2%positive := mk_date 2078 9 30 (-1) ]} : gmap loc date)
          !! 1%positive = Some (mk_date 2078 9 1 (-1))
        ∧ _year o' = 2078 ∧ _month o' = 9 ∧ int (VInt 30) = Ok (_day o').
Proof.
  apply (replace_fields 1%positive 2%positive (mk_date 2078 9 1 (-1))
           VNone VNone (VInt 30)
           {[ 1%positive := mk_date 2078 9 1 (-1) ]}).
  - reflexivity.
  - reflexivity.
Defined.

(** * numbers/convert.py *)

Section digits.
Context {D : DigitsMap}.

(** What a table does to one character: its entry, or the character
    itself when it has none. *)
Definition convert_char (t : gmap pystr pystr) (c : N) : pystr :=
  default [c] (t !! [c]).

Lemma join_get_table (key : string) (t : gmap pystr pystr) (s : pystr) :
  digits_map !! key = Some t →
  convert.join_get key s = Ok (concat (convert_char t <$> s)).
Proof.
  intros Ht. induction s as [|c s IH]; simpl; [done|].
  unfold convert.table. rewrite Ht. simpl. by rewrite IH.
Qed.

Lemma join_get_no_table (key : string) (c : N) (s : pystr) :
  digits_map !! key = None →
  convert.join_get key (c :: s) = Raise (KeyError key).
Proof. intros Ht. simpl. unfold convert.table. by rewrite Ht. Qed.

Lemma concat_convert_untouched (t : gmap pystr pystr) (s : pystr) :
  (∀ c, c ∈ s → t !! [c] = None) →
  concat (convert_char t <$> s) = s.
Proof.
  induction s as [|c s IH]; intros Hs; simpl; [done|].
  unfold convert_char at 1. rewrite (Hs c) by apply list_elem_of_here.
  simpl. f_equal. apply IH. intros c' Hc'. apply Hs. by right.
Qed.

(** X10. With its table in the document, a conversion never fails and
    works character by character: the conversion of [s1 ++ s2] is the
    conversion of [s1] followed by that of [s2], the empty string gives
    the empty string, and a string none of whose characters is a key of
    the table comes back as it is. *)
Theorem conversion_is_character_wise (tn te : gmap pystr pystr)
    (s1 s2 : pystr) :
  digits_map !! "to_nepali" = Some tn →
  digits_map !! "to_english" = Some te →
  ∃ n1 n2 e1 e2,
    convert.to_nepali_number (NStr s1) = Ok n1
    ∧ convert.to_nepali_number (NStr s2) = Ok n2
    ∧ convert.to_nepali_number (NStr (s1 ++ s2)) = Ok (n1 ++ n2)
    ∧ convert.to_english_number (NStr s1) = Ok e1
    ∧ convert.to_english_number (NStr s2) = Ok e2
    ∧ convert.to_english_number (NStr (s1 ++ s2)) = Ok (e1 ++ e2)
    ∧ convert.to_nepali_number (NStr []) = Ok []
    ∧ convert.to_english_number (NStr []) = Ok []
    ∧ ((∀ c, c ∈ s1 → tn !! [c] = None) → n1 = s1)
    ∧ ((∀ c, c ∈ s1 → te !! [c] = None) → e1 = s1).
Proof.
  intros Hn He.
  exists (concat (convert_char tn <$> s1)), (concat (convert_char tn <$> s2)),
    (concat (convert_char te <$> s1)), (concat (convert_char te <$> s2)).
  unfold convert.to_nepali_number, convert.to_english_number. simpl.
  rewrite !(join_get_table _ _ _ Hn), !(join_get_table _ _ _ He).
  rewrite !fmap_app, !concat_app.
  repeat split; auto using concat_convert_untouched.
Qed.

(** X11. Without its table in the document, a conversion gives the empty
    string for the empty string and raises KeyError for any other string;
    [is_nepali_number] answers [True] for the empty string whatever the
    document is, and raises KeyError for any other string when the
    document has no [to_english] table. *)
Theorem conversion_without_table (c : N) (s : pystr) :
  (digits_map !! "to_nepali" = None →
     convert.to_nepali_number (NStr []) = Ok []
     ∧ convert.to_nepali_number (NStr (c :: s)) = Raise (KeyError "to_nepali"))
  ∧ (digits_map !! "to_english" = None →
       convert.to_english_number (NStr []) = Ok []
       ∧ convert.to_english_number (NStr (c :: s))
         = Raise (KeyError "to_english")
       ∧ convert.is_nepali_number (c :: s) = Raise (KeyError "to_english"))
  ∧ convert.is_nepali_number [] = Ok true.
Proof.
  split; [|split; [|done]].
  - intros Ht. split; [done|]. by apply join_get_no_table.
  - intros Ht. split; [done|]. split; [by apply join_get_no_table|].
    simpl. unfold convert.table. by rewrite Ht.
Qed.

Lemma is_nepali_number_table (te : gmap pystr pystr) (s : pystr) :
  digits_map !! "to_english" = Some te →
  convert.is_nepali_number s
  = Ok (forallb (λ c, bool_decide (is_Some (te !! [c]))) s).
Proof.
  intros He. induction s as [|c s IH]; simpl; [done|].
  unfold convert.table. rewrite He. simpl.
  by destruct (bool_decide (is_Some (te !! [c]))).
Qed.

(** X12. With the [to_english] table in the document, [is_nepali_number]
    answers [True] exactly when every character of the text is a key of
    that table, and the answer for [s1 ++ s2] is the conjunction of the
    answers for [s1] and [s2]. *)
Theorem is_nepali_number_all_keys (te : gmap pystr pystr) (s1 s2 : pystr) :
  digits_map !! "to_english" = Some te →
  (convert.is_nepali_number s1 = Ok true
   ↔ ∀ c, c ∈ s1 → is_Some (te !! [c]))
  ∧ ∃ b1 b2, convert.is_nepali_number s1 = Ok b1
             ∧ convert.is_nepali_number s2 = Ok b2
             ∧ convert.is_nepali_number (s1 ++ s2) = Ok (b1 && b2).
Proof.
  intros He. rewrite !(is_nepali_number_table te) by done. split.
  - split.
    + intros [= H] c Hc. apply Is_true_true_2, forallb_True in H.
      rewrite Forall_forall in H. specialize (H c Hc). simpl in H.
      by apply bool_decide_unpack in H.
    + intros H. f_equal. apply Is_true_true_1, forallb_True, Forall_forall.
      intros c Hc. by apply bool_decide_pack, H.
  - eexists _, _. split; [done|]. split; [done|]. by rewrite forallb_app.
Qed.

Lemma round_trip_tables (t1 t2 : gmap pystr pystr) (s : pystr) :
  (∀ c v, t1 !! [c] = Some v → ∃ c', v = [c'] ∧ t2 !! [c'] = Some [c]) →
  (∀ c, c ∈ s → t1 !! [c] = None → t2 !! [c] = None) →
  concat (convert_char t2 <$> concat (convert_char t1 <$> s)) = s.
Proof.
  intros Hinv. induction s as [|c s IH]; intros Hs; [done|].
  change (concat (convert_char t1 <$> c :: s))
    with (convert_char t1 c ++ concat (convert_char t1 <$> s)).
  rewrite fmap_app, concat_app, IH
    by (intros c' Hc'; apply Hs; by right).
  unfold convert_char at 2.
  destruct (t1 !! [c]) as [v|] eqn:E; simpl.
  - destruct (Hinv c v E) as (c' & -> & E'). simpl.
    unfold convert_char. by rewrite E'.
  - unfold convert_char.
    by rewrite (Hs c (list_elem_of_here _ _) E).
Qed.

Lemma length_concat_one_each (t : gmap pystr pystr) (s : pystr) :
  (∀ c, c ∈ s → ∃ c', t !! [c] = Some [c']) →
  length (concat (convert_char t <$> s)) = length s.
Proof.
  induction s as [|c s IH]; intros Hs; [done|].
  change (concat (convert_char t <$> c :: s))
    with (convert_char t c ++ concat (convert_char t <$> s)).
  rewrite length_app, IH by (intros c' Hc'; apply Hs; by right).
  destruct (Hs c (list_elem_of_here _ _)) as [c' Hc'].
  unfold convert_char. by rewrite Hc'.
Qed.

Lemma inverse_on_characters_spec (t1 t2 : gmap pystr pystr) :
  inverse_on_characters t1 t2 = true →
  ∀ c v, t1 !! [c] = Some v → ∃ c', v = [c'] ∧ t2 !! [c'] = Some [c].
Proof.
  intros H c v Hv. unfold inverse_on_characters in H.
  apply Is_true_true_2, forallb_True in H. rewrite Forall_forall in H.
  specialize (H ([c], v) (proj2 (elem_of_map_to_list t1 [c] v) Hv)).
  simpl in H. destruct v as [|c' [|c'' v]]; try done.
  exists c'. split; [done|]. by apply bool_decide_unpack in H.
Qed.

Lemma untouched_are_no_keys_spec (t1 t2 : gmap pystr pystr) (s : pystr) :
  untouched_are_no_keys t1 t2 s = true →
  ∀ c, c ∈ s → t1 !! [c] = None → t2 !! [c] = None.
Proof.
  intros H c Hc Hnone. unfold untouched_are_no_keys in H.
  apply Is_true_true_2, forallb_True in H. rewrite Forall_forall in H.
  specialize (H c Hc). simpl in H. rewrite Hnone in H.
  by apply bool_decide_unpack in H.
Qed.

(** X13. When each one-character entry of [to_nepali] is one character
    that [to_english] maps back to the key, converting a string to Nepali
    digits and back gives the string one started from, provided the
    characters of the string that [to_nepali] leaves alone are no keys of
    [to_english]. *)
Theorem to_english_of_to_nepali (tn te : gmap pystr pystr) (s : pystr) :
  digits_map !! "to_nepali" = Some tn →
  digits_map !! "to_english" = Some te →
  inverse_on_characters tn te = true →
  untouched_are_no_keys tn te s = true →
  ∃ n, convert.to_nepali_number (NStr s) = Ok n
       ∧ convert.to_english_number (NStr n) = Ok s.
Proof.
  intros Hn He Hinv Hs.
  exists (concat (convert_char tn <$> s)).
  unfold convert.to_nepali_number, convert.to_english_number. simpl.
  rewrite (join_get_table _ _ _ Hn), (join_get_table _ _ _ He).
  split; [done|]. f_equal. apply round_trip_tables.
  - by apply inverse_on_characters_spec.
  - by apply untouched_are_no_keys_spec.
Qed.

(** X14. When each one-character entry of [to_english] is one character
    that [to_nepali] maps back to the key, a text that [is_nepali_number]
    accepts is given back by converting it to English digits and then to
    Nepali digits, and its English form has as many characters. *)
Theorem to_nepali_of_to_english (tn te : gmap pystr pystr) (s : pystr) :
  digits_map !! "to_nepali" = Some tn →
  digits_map !! "to_english" = Some te →
  inverse_on_characters te tn = true →
  convert.is_nepali_number s = Ok true →
  ∃ e, convert.to_english_number (NStr s) = Ok e
       ∧ length e = length s
       ∧ convert.to_nepali_number (NStr e) = Ok s.
Proof.
  intros Hn He Hinv Hs.
  pose proof (inverse_on_characters_spec te tn Hinv) as Hinv'.
  rewrite (is_nepali_number_table te) in Hs by done.
  assert (Hkeys : ∀ c, c ∈ s → is_Some (te !! [c])).
  { injection Hs as Hs. intros c Hc.
    apply Is_true_true_2, forallb_True in Hs.
    rewrite Forall_forall in Hs. specialize (Hs c Hc). simpl in Hs.
    by apply bool_decide_unpack in Hs. }
  exists (concat (convert_char te <$> s)).
  unfold convert.to_nepali_number, convert.to_english_number. simpl.
  rewrite (join_get_table _ _ _ Hn), (join_get_table _ _ _ He).
  split; [done|]. split.
  - apply length_concat_one_each. intros c Hc.
    destruct (Hkeys c Hc) as [v Hv].
    destruct (Hinv' c v Hv) as (c' & -> & _). by exists c'.
  - f_equal. apply round_trip_tables; [done|].
    intros c Hc Hnone. destruct (Hkeys c Hc) as [v Hv]. congruence.
Qed.









End digits.

Lemma conversion_is_character_wise_witness :
  convert.to_nepali_number (NStr (code_points "20" ++ code_points "78"))
  = Ok (devanagari_digit 2 ++ devanagari_digit 0
        ++ devanagari_digit 7 ++ devanagari_digit 8)
  ∧ convert.to_english_number (NStr (code_points "ab")) = Ok (code_points "ab").
Proof.
  destruct (conversion_is_character_wise (D := devanagari_digits)
              devanagari_to_nepali
              devanagari_to_english (code_points "20") (code_points "78")
              eq_refl eq_refl)
    as (n1 & n2 & e1 & e2 & H1 & H2 & H3 & _).
  destruct (conversion_is_character_wise (D := devanagari_digits)
              devanagari_to_nepali
              devanagari_to_english (code_points "ab") [] eq_refl eq_refl)
    as (n1' & n2' & e1' & e2' & _ & _ & _ & H4 & _ & _ & _ & _ & _ & H10).
  split.
  - rewrite H3. injection H1 as <-. injection H2 as <-. reflexivity.
  - rewrite H4. f_equal. apply H10.
    intros c Hc. vm_compute in Hc.
    repeat (apply elem_of_cons in Hc as [->|Hc]; [reflexivity|]).
    by apply elem_of_nil in Hc.
Defined.

Lemma conversion_without_table_witness :
  convert.to_nepali_number (D := empty_document) (NStr [50%N])
  = Raise (KeyError "to_nepali")
  ∧ convert.is_nepali_number (D := empty_document) [2408%N] = Raise (KeyError "to_english").
Proof.
  destruct (conversion_without_table (D := empty_document) 50%N []) as (H1 & _ & _).
  destruct (conversion_without_table (D := empty_document) 2408%N []) as (_ & H2 & _).
  split.
  - apply H1. reflexivity.
  - apply H2. reflexivity.
Defined.

Lemma is_nepali_number_all_keys_witness :
  convert.is_nepali_number [2407; 2408; 2409; 51]%N = Ok (true && false).
Proof.
  destruct (is_nepali_number_all_keys (D := devanagari_digits)
              devanagari_to_english
              [2407; 2408; 2409]%N [51%N] eq_refl)
    as (_ & b1 & b2 & H1 & H2 & H3).
  injection H1 as <-. injection H2 as <-. exact H3.
Defined.

Lemma to_english_of_to_nepali_witness :
  ∃ n, convert.to_nepali_number (NStr (code_points "BS 2078-09-01")) = Ok n
       ∧ convert.to_english_number (NStr n)
         = Ok (code_points "BS 2078-09-01").
Proof.
  apply (to_english_of_to_nepali devanagari_to_nepali devanagari_to_english);
    reflexivity.
Defined.

Lemma to_nepali_of_to_english_witness :
  ∃ e, convert.to_english_number (NStr [2408; 2406; 2413; 2414]%N) = Ok e
       ∧ length e = 4%nat
       ∧ convert.to_nepali_number (NStr e)
         = Ok [2408; 2406; 2413; 2414]%N.
Proof.
  apply (to_nepali_of_to_english devanagari_to_nepali devanagari_to_english
           [2408; 2406; 2413; 2414]%N);
    reflexivity.
Defined.



(** * location/__init__.py *)

Section lookups.
Context {L : StrLower} {G : LocationData}.

Lemma in_supported_languages (m : pystr) :
  m ∈ location.SUPPORTED_LANGUAGES ↔ m = code_points "en" ∨ m = code_points "np".
Proof.
  unfold location.SUPPORTED_LANGUAGES.
  rewrite !elem_of_cons, elem_of_nil. tauto.
Qed.


(** X17. [_normalize_mode] gives [None] for [None] and for nothing else;
    the only strings it returns are "en" and "np", each the lower case of
    the string given; a string of another lower case is refused as an
    unsupported mode, and a value that is neither [None] nor a string
    with a TypeError. *)
Theorem normalize_mode_result (mode : json) :
  location._normalize_mode JNull = location.ok None
  ∧ (location._normalize_mode mode = location.ok None → mode = JNull)
  ∧ (∀ m, location._normalize_mode mode = location.ok (Some m) →
       (m = code_points "en" ∨ m = code_points "np")
       ∧ ∃ s, mode = JStr s ∧ lower s = m)
  ∧ (∀ s, mode = JStr s →
       lower s ≠ code_points "en" → lower s ≠ code_points "np" →
       location._normalize_mode mode
       = location.fail (location.unsupported_mode (lower s)))
  ∧ (mode ≠ JNull → location.isinstance_str mode = false →
       location._normalize_mode mode
       = location.fail (location.type_error "Mode must be a string or None.")).
Proof.
  split; [done|]. split; [|split; [|split]].
  - destruct mode as [|b|z|s]; simpl; try done. by case_bool_decide.
  - intros m. destruct mode as [|b|z|s]; simpl; try done.
    case_bool_decide as Hm; [|done]. intros [= <-].
    split; [by apply in_supported_languages | by exists s].
  - intros s -> Hen Hnp. simpl. case_bool_decide as Hm; [|done].
    apply in_supported_languages in Hm as [?|?]; done.
  - by destruct mode.
Qed.

(** The first record of a list whose value under [key] equals [v]. *)
Lemma first_with_spec (key : string) (v : json)
    (values : list (gmap pystr json)) :
  match location.first_with key v values with
  | location.ok (Some d) =>
      ∃ before after x,
        values = before ++ d :: after
        ∧ d !! code_points key = Some x ∧ location.py_eq x v = true
        ∧ ∀ d', d' ∈ before →
            ∃ y, d' !! code_points key = Some y ∧ location.py_eq y v = false
  | location.ok None =>
      ∀ d', d' ∈ values →
        ∃ y, d' !! code_points key = Some y ∧ location.py_eq y v = false
  | location.fail e =>
      e = location.key_error key
      ∧ ∃ d', d' ∈ values ∧ d' !! code_points key = None
  end.
Proof.
  induction values as [|d values IH]; simpl.
  - intros d' Hd'. by apply elem_of_nil in Hd'.
  - unfold location.getitem.
    destruct (d !! code_points key) as [x|] eqn:Ex; simpl.
    + destruct (location.py_eq x v) eqn:Eq.
      * exists [], values, x. repeat split; try done.
        intros d' Hd'. by apply elem_of_nil in Hd'.
      * destruct (location.first_with key v values) as [[d0|]|e].
        -- destruct IH as (before & after & x0 & -> & Hx0 & Heq0 & Hbefore).
           exists (d :: before), after, x0. repeat split; try done.
           intros d' [->|Hd']%elem_of_cons; eauto.
        -- intros d' [->|Hd']%elem_of_cons; eauto.
        -- destruct IH as (-> & d' & Hd' & Hnone). split; [done|].
           exists d'. split; [by right|done].
    + split; [done|]. exists d. split; [by left|done].
Qed.

(** X18. [_get_by_id] answers with the first record of the list whose
    [id] equals the one asked for, every record before it having another
    [id]; with [None] when every record has another [id]; and it raises
    KeyError exactly when it meets a record without [id] before finding
    one. *)
Theorem get_by_id_first_match (id : json) (values : list (gmap pystr json)) :
  (∀ d, location._get_by_id id values = location.ok (Some d) →
     ∃ before after x,
       values = before ++ d :: after
       ∧ d !! code_points "id" = Some x ∧ location.py_eq x id = true
       ∧ ∀ d', d' ∈ before →
           ∃ y, d' !! code_points "id" = Some y
                ∧ location.py_eq y id = false)
  ∧ (location._get_by_id id values = location.ok None →
     ∀ d', d' ∈ values →
       ∃ y, d' !! code_points "id" = Some y ∧ location.py_eq y id = false)
  ∧ (∀ e, location._get_by_id id values = location.fail e →
     e = location.key_error "id"
     ∧ ∃ d', d' ∈ values ∧ d' !! code_points "id" = None).
Proof.
  unfold location._get_by_id.
  pose proof (first_with_spec "id" id values) as H.
  destruct (location.first_with "id" id values) as [[d0|]|e0].
  - split; [|split]; [|done|done]. by intros d [= <-].
  - split; [|split]; [done| |done]. by intros _.
  - split; [|split]; [done|done|]. by intros e [= <-].
Qed.

Lemma other_keys_lookup (d : gmap pystr json) (k : pystr) :
  location.other_keys d !! k
  = if location.startswith (code_points "name_") k
       || location.startswith (code_points "headquarter_") k
    then None else d !! k.
Proof.
  unfold location.other_keys.
  destruct (location.startswith (code_points "name_") k) eqn:E1;
    [|destruct (location.startswith (code_points "headquarter_") k) eqn:E2];
    cbn [orb].
  - apply map_lookup_filter_None. right. intros x _. cbn [fst].
    by rewrite E1.
  - apply map_lookup_filter_None. right. intros x _. cbn [fst].
    by rewrite E1, E2.
  - destruct (d !! k) as [x|] eqn:Ek.
    + apply map_lookup_filter_Some. split; [done|]. cbn [fst].
      by rewrite E1, E2.
    + apply map_lookup_filter_None. by left.
Qed.

(** X19. When [_get_single_value_by_lang] succeeds on a record, the
    result has under [name] and [headquarter] what the record has under
    [name_<mode>] and [headquarter_<mode>], no other key that starts with
    [name_] or [headquarter_], and every other key with the value of the
    record; it raises KeyError when the record lacks one of the two
    localized keys. *)
Theorem single_value_by_lang_shape (mode : pystr) (value : gmap pystr json) :
  (∀ v, location._get_single_value_by_lang mode value = location.ok v →
     v !! code_points "name" = value !! location.lang_key "name_" mode
     ∧ v !! code_points "headquarter"
       = value !! location.lang_key "headquarter_" mode
     ∧ ∀ k, k ≠ code_points "name" → k ≠ code_points "headquarter" →
         v !! k = if location.startswith (code_points "name_") k
                     || location.startswith (code_points "headquarter_") k
                  then None else value !! k)
  ∧ ((∃ e, location._get_single_value_by_lang mode value = location.fail e)
     ↔ value !! location.lang_key "name_" mode = None
       ∨ value !! location.lang_key "headquarter_" mode = None).
Proof.
  unfold location._get_single_value_by_lang.
  destruct (value !! location.lang_key "name_" mode) as [name|] eqn:En;
    [destruct (value !! location.lang_key "headquarter_" mode) as [hq|] eqn:Eh|].
  - split.
    + intros v [= <-]. split; [|split].
      * rewrite lookup_insert_ne by done. apply lookup_insert_eq.
      * apply lookup_insert_eq.
      * intros k Hk1 Hk2. rewrite !lookup_insert_ne by done.
        apply other_keys_lookup.
    + split; [by intros [e ?]|]. by intros [?|?].
  - split; [done|]. split; [by right|eauto].
  - split; [done|]. split; [by left|eauto].
Qed.

End lookups.

Lemma normalize_mode_result_witness :
  location._normalize_mode (text "NP") = location.ok (Some (code_points "np"))
  ∧ location._normalize_mode (text "fr")
    = location.fail (location.unsupported_mode (code_points "fr"))
  ∧ location._normalize_mode (JInt 3)
    = location.fail (location.type_error "Mode must be a string or None.").
Proof.
  destruct (normalize_mode_result (text "fr")) as (_ & _ & _ & H4 & _).
  destruct (normalize_mode_result (JInt 3)) as (_ & _ & _ & _ & H5).
  split; [reflexivity|]. split.
  - apply (H4 (code_points "fr")); [reflexivity | discriminate | discriminate].
  - apply H5; [discriminate | reflexivity].
Defined.

Lemma get_by_id_first_match_witness :
  ∃ d before after x,
    location._get_by_id (JInt 2) _districts = location.ok (Some d)
    ∧ _districts = before ++ d :: after
    ∧ d !! code_points "id" = Some x
    ∧ location.py_eq x (JInt 2) = true.
Proof.
  destruct (get_by_id_first_match (JInt 2) _districts) as (H1 & _ & _).
  eexists.
  edestruct H1 as (before & after & x & Hsplit & Hx & Heq & _);
    [reflexivity|].
  exists before, after, x.
  split; [reflexivity|]. split; [exact Hsplit|]. split; [exact Hx|exact Heq].
Defined.

Lemma single_value_by_lang_shape_witness :
  ∃ v, location._get_single_value_by_lang (code_points "en")
         (record [("id", JInt 1); ("name_en", text "Koshi Province");
                  ("name_np", JStr koshi_np);
                  ("headquarter_en", text "Biratnagar");
                  ("headquarter_np", JStr [2348; 2367]%N)])
       = location.ok v
       ∧ v !! code_points "name" = Some (text "Koshi Province")
       ∧ v !! code_points "name_np" = None
       ∧ v !! code_points "id" = Some (JInt 1).
Proof.
  eexists. split; [reflexivity|].
  match goal with
  | |- ?v !! _ = _ ∧ _ =>
      destruct (single_value_by_lang_shape (code_points "en")
                  (record [("id", JInt 1); ("name_en", text "Koshi Province");
                           ("name_np", JStr koshi_np);
                           ("headquarter_en", text "Biratnagar");
                           ("headquarter_np", JStr [2348; 2367]%N)]))
        as [H _];
      destruct (H v eq_refl) as (H1 & _ & H3)
  end.
  split; [rewrite H1; reflexivity|]. split.
  - rewrite H3 by discriminate. reflexivity.
  - rewrite H3 by discriminate. reflexivity.
Defined.

Section queries.
Context {L : StrLower} {G : LocationData}.

Lemma by_mode_none (mode : json) : location.by_mode mode None = location.ok None.
Proof. reflexivity. Qed.

Lemma by_mode_found (mode : json) (r : gmap pystr json) :
  r ≠ ∅ →
  location.by_mode mode (Some r)
  = match location._normalize_mode mode with
    | location.fail e => location.fail e
    | location.ok None => location.ok (Some r)
    | location.ok (Some m) =>
        match location._get_single_value_by_lang m r with
        | location.ok v => location.ok (Some v)
        | location.fail e => location.fail e
        end
    end.
Proof.
  intros Hr. unfold location.by_mode, location.not_result.
  rewrite bool_decide_false by done.
  destruct mode as [|b|z|s]; simpl; try done.
  case_bool_decide as Hm; simpl; [|done].
  by rewrite bool_decide_true by done.
Qed.

Lemma found_by_id_nonempty (id : json) (values : list (gmap pystr json))
    (r : gmap pystr json) :
  location._get_by_id id values = location.ok (Some r) → r ≠ ∅.
Proof.
  intros Hr. unfold location._get_by_id in Hr.
  pose proof (first_with_spec "id" id values) as H. rewrite Hr in H.
  destruct H as (_ & _ & x & _ & Hx & _). intros ->.
  by rewrite lookup_empty in Hx.
Qed.

(** X20. [provinces.get] and [districts.get], on any list of records:
    with neither [id] nor [name] the call is a ValueError; an [id] that
    is no integer is a TypeError; with an [id] the [name] plays no part;
    an [id] that no record has gives [None] whatever the mode is, a wrong
    one included, while for an [id] some record has a mode that
    [_normalize_mode] refuses makes the call fail and no mode gives the
    record itself; without [id], an empty or otherwise false [name] gives
    [None] and a true [name] that is no string is a TypeError. *)
Theorem get_outcomes (data : list (gmap pystr json)) (id name mode : json) :
  location.get_in data JNull JNull mode
  = location.fail (location.value_error "Either 'id' or 'name' must be provided.")
  ∧ (id ≠ JNull → location.isinstance_int id = false →
     location.get_in data id name mode
     = location.fail (location.type_error "'id' must be an integer."))
  ∧ (id ≠ JNull → ∀ name',
       location.get_in data id name mode = location.get_in data id name' mode)
  ∧ (location.isinstance_int id = true →
     location._get_by_id id data = location.ok None →
     location.get_in data id name mode = location.ok None)
  ∧ (∀ r, location.isinstance_int id = true →
       location._get_by_id id data = location.ok (Some r) →
       (∀ e, location._normalize_mode mode = location.fail e →
          location.get_in data id name mode = location.fail e)
       ∧ (mode = JNull →
          location.get_in data id name mode = location.ok (Some r)))
  ∧ (name ≠ JNull → location.truthy name = false →
     location.get_in data JNull name mode = location.ok None)
  ∧ (location.truthy name = true → location.isinstance_str name = false →
     location.get_in data JNull name mode
     = location.fail (location.type_error "'name' must be a string.")).
Proof.
  split; [done|]. split; [|split; [|split; [|split; [|split]]]].
  - intros Hid Hint. destruct id; try done; destruct name; done.
  - intros Hid name'. destruct id; try done; destruct name, name'; done.
  - intros Hint Hnone.
    destruct id; try done; destruct name; simpl; by rewrite Hnone.
  - intros r Hint Hr.
    pose proof (found_by_id_nonempty id data r Hr) as Hne.
    assert (Hget : location.get_in data id name mode
                   = location.by_mode mode (Some r)).
    { destruct id; try done; destruct name; simpl; by rewrite Hr. }
    rewrite Hget, by_mode_found by done. split.
    + by intros e ->.
    + by intros ->.
  - intros Hname Hfalse. destruct name; try done; simpl in *.
    + by rewrite Hfalse.
    + by rewrite Hfalse.
    + by destruct s.
  - intros Htrue Hstr. destruct name; try done; simpl in *.
    + by rewrite Htrue.
    + by rewrite Htrue.
Qed.


End queries.

Section hierarchy.
Context {L : StrLower} {G : LocationData}.

(** The records of a list whose value under [key] equals [v]. *)
Lemma with_key_spec (key : string) (v : json)
    (values : list (gmap pystr json)) :
  match location.districts.with_key key v values with
  | location.ok l =>
      sublist l values
      ∧ ∀ d, d ∈ l ↔
          d ∈ values
          ∧ ∃ x, d !! code_points key = Some x ∧ location.py_eq x v = true
  | location.fail e =>
      e = location.key_error key
      ∧ ∃ d, d ∈ values ∧ d !! code_points key = None
  end.
Proof.
  induction values as [|d values IH]; simpl.
  - split; [done|]. intros d. split.
    + by intros ?%elem_of_nil.
    + by intros [?%elem_of_nil _].
  - unfold location.getitem.
    destruct (d !! code_points key) as [x|] eqn:Ex; simpl.
    + destruct (location.districts.with_key key v values) as [l|e]; simpl.
      * destruct IH as [Hsub Hin].
        destruct (location.py_eq x v) eqn:Eq.
        -- split; [by constructor|]. intros d'. rewrite !elem_of_cons, Hin.
           split.
           ++ intros [->|[? ?]]; eauto.
           ++ intros [[->|?] ?]; eauto.
        -- split; [by constructor|]. intros d'. rewrite elem_of_cons, Hin.
           split.
           ++ intros [? ?]; eauto.
           ++ intros [[->|?] (x' & Hx' & Heq')]; [|eauto]. congruence.
      * destruct IH as (-> & d' & Hd' & Hnone). split; [done|].
        exists d'. split; [by right|done].
    + split; [done|]. exists d. split; [by left|done].
Qed.

(** X22. [districts.get_by_province] with the identifier of a province
    and no mode gives, in the order of the data, exactly the districts
    whose [province_id] equals the identifier; it raises KeyError when
    some district has no [province_id]. *)
Theorem get_by_province_id (province : json) :
  location.isinstance_int province = true →
  (∀ l, location.districts.get_by_province province JNull = location.ok l →
     sublist l _districts
     ∧ ∀ d, d ∈ l ↔
         d ∈ _districts
         ∧ ∃ x, d !! code_points "province_id" = Some x
                ∧ location.py_eq x province = true)
  ∧ (∀ e, location.districts.get_by_province province JNull
          = location.fail e →
     e = location.key_error "province_id"
     ∧ ∃ d, d ∈ _districts ∧ d !! code_points "province_id" = None).
Proof.
  intros Hint.
  pose proof (with_key_spec "province_id" province _districts) as H.
  assert (Hget : location.districts.get_by_province province JNull
                 = location.districts.with_key "province_id" province
                     _districts).
  { unfold location.districts.get_by_province. rewrite Hint.
    destruct province; try done; simpl;
      by destruct (location.districts.with_key _ _ _). }
  rewrite Hget.
  destruct (location.districts.with_key "province_id" province _districts)
    as [l0|e0].
  - split; [|done]. by intros l [= <-].
  - split; [done|]. by intros e [= <-].
Qed.

(** X23. [districts.get_by_province] with the name of a province that
    [provinces.get] does not find gives the empty list whatever the mode
    is, a mode that [_normalize_mode] refuses included; a [province] that
    is neither an integer nor a string is a TypeError. *)
Theorem get_by_province_unknown_name (province mode : json) :
  (location.isinstance_str province = true →
   location.provinces.get JNull province JNull = location.ok None →
   location.districts.get_by_province province mode = location.ok [])
  ∧ (location.isinstance_int province = false →
     location.isinstance_str province = false →
     location.districts.get_by_province province mode
     = location.fail (location.type_error "'province' must be an int or str.")).
Proof.
  split.
  - intros Hstr Hnone. unfold location.districts.get_by_province.
    destruct province; try done.
    cbn [location.isinstance_int location.isinstance_str].
    by rewrite Hnone.
  - intros Hint Hstr. by destruct province.
Qed.

(** X24. [wards.get_by_municipality] with the identifier of a
    municipality: when [municipalities.get] finds a record with an
    integer [ward_count] of [n], the wards are 1, 2, ..., [n] in order,
    none when [n] is below 1; when it finds no record, or a record
    without [ward_count], there are no wards. *)
Theorem wards_of_municipality (municipality : json) :
  location.isinstance_int municipality = true →
  (∀ m n, location.municipalities.get municipality JNull = location.ok (Some m) →
     m !! code_points "ward_count" = Some (JInt n) →
     location.wards.get_by_municipality municipality = location.ok (seqZ 1 n)
     ∧ length (seqZ 1 n) = Z.to_nat n
     ∧ ∀ w, w ∈ seqZ 1 n ↔ 1 ≤ w ≤ n)
  ∧ (location.municipalities.get municipality JNull = location.ok None →
     location.wards.get_by_municipality municipality = location.ok [])
  ∧ (∀ m, location.municipalities.get municipality JNull = location.ok (Some m) →
     m !! code_points "ward_count" = None →
     location.wards.get_by_municipality municipality = location.ok []).
Proof.
  intros Hint. split; [|split].
  - intros m n Hm Hn.
    assert (Hne : m ≠ ∅) by (intros ->; by rewrite lookup_empty in Hn).
    split; [|split].
    + unfold location.wards.get_by_municipality. rewrite Hint.
      destruct municipality; try done;
        cbn -[location.municipalities.get seqZ code_points]; rewrite Hm;
        cbn -[seqZ code_points]; rewrite bool_decide_false by done;
        by rewrite Hn.
    + apply length_seqZ.
    + intros w. rewrite elem_of_seqZ. lia.
  - intros Hm. unfold location.wards.get_by_municipality. rewrite Hint.
    destruct municipality; try done;
      cbn -[location.municipalities.get]; by rewrite Hm.
  - intros m Hm Hn. unfold location.wards.get_by_municipality. rewrite Hint.
    destruct municipality; try done;
      cbn -[location.municipalities.get code_points]; rewrite Hm;
      cbn -[code_points]; case_bool_decide; try done; by rewrite Hn.
Qed.

(** X25. What [_get_by_name] finds is a record of the list whose English
    name has the lower case of the name asked for, or whose Nepali name
    is the name asked for; when it finds nothing, no record of the list
    is such a record. *)
Theorem get_by_name_match (name : pystr) (values : list (gmap pystr json)) :
  (∀ d, location._get_by_name name values = location.ok (Some d) →
     d ∈ values
     ∧ ((∃ s, d !! code_points "name_en" = Some (JStr s)
              ∧ lower s = lower name)
        ∨ d !! code_points "name_np" = Some (JStr name)))
  ∧ (location._get_by_name name values = location.ok None →
     ∀ d, d ∈ values →
       (∃ s, d !! code_points "name_en" = Some (JStr s)
             ∧ lower s ≠ lower name)
       ∧ d !! code_points "name_np" ≠ Some (JStr name)).
Proof.
  induction values as [|d values [IH1 IH2]].
  - split; [done|]. intros _ d Hd. by apply elem_of_nil in Hd.
  - simpl. unfold location.getitem.
    destruct (d !! code_points "name_en") as [[|b|z|s]|] eqn:Een;
      simpl; try done.
    case_bool_decide as Hlow.
    + split; [|done]. intros d' [= <-]. split; [by left|]. left. by exists s.
    + destruct (d !! code_points "name_np") as [np|] eqn:Enp; simpl;
        [|done].
      destruct (location.py_eq np (JStr name)) eqn:Eq.
      * split; [|done]. intros d' [= <-]. split; [by left|]. right.
        destruct np; try done. simpl in Eq.
        apply bool_decide_eq_true in Eq. by subst.
      * split.
        -- intros d' Hd'. destruct (IH1 d' Hd') as [Hin Hmatch].
           split; [by right|done].
        -- intros Hnone d' [->|Hd']%elem_of_cons; [|by apply IH2].
           split; [by exists s|]. rewrite Enp. intros [= ->].
           simpl in Eq. by rewrite bool_decide_true in Eq.
Qed.

End hierarchy.

Lemma get_outcomes_witness :
  location.provinces.get (JInt 9) JNull (text "xx") = location.ok None
  ∧ location.provinces.get (JInt 1) JNull (text "xx")
    = location.fail (location.unsupported_mode (code_points "xx"))
  ∧ location.provinces.get JNull (JStr []) JNull = location.ok None
  ∧ location.provinces.get (text "1") JNull JNull
    = location.fail (location.type_error "'id' must be an integer.").
Proof.
  destruct (get_outcomes _provinces (JInt 9) JNull (text "xx"))
    as (_ & _ & _ & H4 & _).
  destruct (get_outcomes _provinces (JInt 1) JNull (text "xx"))
    as (_ & _ & _ & _ & H5 & _).
  destruct (get_outcomes _provinces JNull (JStr []) JNull)
    as (_ & _ & _ & _ & _ & H6 & _).
  destruct (get_outcomes _provinces (text "1") JNull JNull)
    as (_ & H2 & _).
  split; [|split; [|split]].
  - apply H4; reflexivity.
  - eapply H5; reflexivity.
  - apply H6; [discriminate | reflexivity].
  - apply H2; [discriminate | reflexivity].
Defined.


Lemma get_by_province_id_witness :
  ∃ l, location.districts.get_by_province (JInt 1) JNull = location.ok l
       ∧ sublist l _districts.
Proof.
  eexists. split; [reflexivity|].
  apply (get_by_province_id (JInt 1)); reflexivity.
Defined.

Lemma get_by_province_unknown_name_witness :
  location.districts.get_by_province (text "Atlantis") (text "xx")
  = location.ok []
  ∧ location.districts.get_by_province JNull JNull
    = location.fail (location.type_error "'province' must be an int or str.").
Proof.
  split.
  - apply (get_by_province_unknown_name (text "Atlantis") (text "xx"));
      reflexivity.
  - apply (get_by_province_unknown_name JNull JNull); reflexivity.
Defined.

Lemma wards_of_municipality_witness :
  location.wards.get_by_municipality (JInt 2) = location.ok (seqZ 1 9)
  ∧ location.wards.get_by_municipality (JInt 7) = location.ok [].
Proof.
  destruct (wards_of_municipality (JInt 2) eq_refl) as (H1 & _ & _).
  destruct (wards_of_municipality (JInt 7) eq_refl) as (_ & H2 & _).
  split.
  - eapply H1; reflexivity.
  - apply H2. reflexivity.
Defined.

Lemma get_by_name_match_witness :
  ∃ d, location._get_by_name (code_points "KOSHI province") _provinces
       = location.ok (Some d)
       ∧ d ∈ _provinces.
Proof.
  eexists. split; [reflexivity|].
  apply (get_by_name_match (code_points "KOSHI province") _provinces).
  reflexivity.
Defined.
